(** * nepse-api: the rate limiter, the symbol routes and the statistics
      aggregator of [main.py]

    The development follows [main.py] top-down:
    - Python exceptions and the outcome of a call ([exn], [result]);
    - Python's insertion-ordered [dict] ([PyDict]);
    - the token bucket and [RateLimiterMiddleware.dispatch];
    - the two routes with a [symbol] path parameter;
    - [get_trade_turnover_transaction_subindices]. *)

From Stdlib Require Import QArith Lqa.
From stdpp Require Import gmap strings list pretty.

#[local] Set Warnings "-clear-no-such-hyp".
Local Open Scope Z_scope.

(** * Exceptions and results *)

(** The exception objects that [main.py] raises or catches.  [Exception]
    stands for an instance of any other subclass of Python's [Exception],
    with its message. *)
Inductive exn : Type :=
  | KeyError (key : string)
  | JSONDecodeError (msg : string)
  | HTTPException (status_code : Z) (detail : string)
  | Exception (msg : string).

(** A call either returns a value or raises. *)
Inductive result (A : Type) : Type :=
  | Ok (a : A)
  | Raise (e : exn).
Arguments Ok {A} a.
Arguments Raise {A} e.

(** Sequencing: the first exception ends the computation.  The notation
    [x ← r; k] is stdpp's. *)
#[global] Instance result_ret : MRet result := fun A a => Ok a.
#[global] Instance result_bind : MBind result := fun A B k r =>
  match r with
  | Ok a => k a
  | Raise e => Raise e
  end.

(** [try: body  except ...: handler e]. *)
Definition try_except {A} (body : result A) (handler : exn → result A) : result A :=
  match body with
  | Ok a => Ok a
  | Raise e => handler e
  end.

(** [for x in xs: s = body s x], stopping at the first exception. *)
Fixpoint for_in {A S} (xs : list A) (body : S → A → result S) (s : S) : result S :=
  match xs with
  | [] => Ok s
  | x :: xs' => s' ← body s x; for_in xs' body s'
  end.

(** * Python dictionaries *)

(** A [dict] with string keys keeps its items in insertion order; assigning
    to a key that is present replaces the value where it stands. *)
Module PyDict.

Definition dict (V : Type) : Type := list (string * V).

Section Ops.
Context {V : Type}.

Definition empty : dict V := [].

(** [d.keys()], [d.values()], [d.items()] *)
Definition keys (d : dict V) : list string := map fst d.
Definition values (d : dict V) : list V := map snd d.
Definition items (d : dict V) : list (string * V) := d.

(** [d.get(k)] *)
Fixpoint get (d : dict V) (k : string) : option V :=
  match d with
  | [] => None
  | (k', v) :: d' => if decide (k = k') then Some v else get d' k
  end.

(** [k in d.keys()] *)
Definition contains (d : dict V) (k : string) : bool :=
  match get d k with Some _ => true | None => false end.

(** [d[k]] *)
Definition getitem (d : dict V) (k : string) : result V :=
  match get d k with
  | Some v => Ok v
  | None => Raise (KeyError k)
  end.

(** [d[k] = v] *)
Fixpoint set (d : dict V) (k : string) (v : V) : dict V :=
  match d with
  | [] => [(k, v)]
  | (k', v') :: d' =>
      if decide (k = k') then (k', v) :: d' else (k', v') :: set d' k v
  end.

(** [{key(o): val(o) for o in xs}] *)
Definition comprehension {A} (key : A → string) (val : A → V) (xs : list A) : dict V :=
  foldl (fun d o => set d (key o) (val o)) empty xs.

End Ops.

End PyDict.


(** * The token bucket *)

(** Modelled from the spec: the class [TokenBucket] of the module
    [token_bucket], which [main.py] imports and which is not part of the
    sources at hand.  Section 3 of the specification gives its state
    ([capacity], [tokens], [refill_rate], [last_refill]) and section 4.1
    its one operation: "on each call, compute elapsed time since last
    refill, add [elapsed * refill_rate] tokens (capped at [capacity]),
    update [last_refill]; if [tokens ≥ 1], decrement by 1 and return true,
    else return false".  Token counts and clock readings are rationals;
    the clock reading of a call is an argument of the call. *)
Module TokenBucket.
Local Open Scope Q_scope.

Record t : Type := mk {
  capacity : Z;
  tokens : Q;
  refill_rate : Q;
  last_refill : Q;
}.

(** [TokenBucket(capacity=…, refill_rate=…)]: the bucket starts full. *)
Definition init (capacity : Z) (refill_rate : Q) (now : Q) : t :=
  {| capacity := capacity; tokens := inject_Z capacity;
     refill_rate := refill_rate; last_refill := now |}.

(** "capped at [capacity]" *)
Definition capped (capacity : Z) (x : Q) : Q :=
  if Qle_bool (inject_Z capacity) x then inject_Z capacity else x.

Definition take_token (now : Q) (b : t) : bool * t :=
  let elapsed := now - last_refill b in
  let tokens' := capped (capacity b) (tokens b + elapsed * refill_rate b) in
  if Qle_bool 1 tokens'
  then (true, {| capacity := capacity b; tokens := tokens' - 1;
                 refill_rate := refill_rate b; last_refill := now |})
  else (false, {| capacity := capacity b; tokens := tokens';
                  refill_rate := refill_rate b; last_refill := now |}).

(** Consecutive calls, one per clock reading; the answers come back in
    the order of the calls. *)
Fixpoint take_tokens (clock : list Q) (b : t) : list bool * t :=
  match clock with
  | [] => ([], b)
  | now :: clock' =>
      let '(ok, b') := take_token now b in
      let '(oks, b'') := take_tokens clock' b' in
      (ok :: oks, b'')
  end.

(** The invariant of section 3. *)
Definition invariant (b : t) : Prop :=
  0 <= tokens b /\ tokens b <= inject_Z (capacity b).

(** The clock never runs backwards from the bucket's last reading on. *)
Fixpoint monotone (last : Q) (clock : list Q) : Prop :=
  match clock with
  | [] => True
  | now :: clock' => last <= now /\ monotone now clock'
  end.

End TokenBucket.

(** * The rate limiter *)

(** What the middleware does to the world around it, in the order in which
    it does it. *)
Inductive event (Request : Type) : Type :=
  | EvTakeToken (answer : bool)
  | EvCallNext (request : Request).
Arguments EvTakeToken {Request} answer.
Arguments EvCallNext {Request} request.

Section RateLimiterMiddleware.
(** The bucket is used through [take_token] only; [call_next] is the rest
    of the application (the inner middleware and the route handlers),
    which owns the state [App]. *)
Context {Bucket App Request Response : Type}.
Variable take_token : Bucket → bool * Bucket.
Variable call_next : Request → App → result Response * App.

(** [self] together with what it can reach, and the trace of the calls
    made so far. *)
Record RateLimiterMiddleware : Type := {
  bucket : Bucket;
  app : App;
  trace : list (event Request);
}.

(** [self.bucket.take_token()] *)
Definition self_bucket_take_token (self : RateLimiterMiddleware)
  : bool * RateLimiterMiddleware :=
  let '(answer, bucket') := take_token (bucket self) in
  (answer, {| bucket := bucket'; app := app self;
              trace := trace self ++ [EvTakeToken answer] |}).

(** [await call_next(request)] *)
Definition await_call_next (request : Request) (self : RateLimiterMiddleware)
  : result Response * RateLimiterMiddleware :=
  let '(response, app') := call_next request (app self) in
  (response, {| bucket := bucket self; app := app';
                trace := trace self ++ [EvCallNext request] |}).

Definition dispatch (request : Request) (self : RateLimiterMiddleware)
  : result Response * RateLimiterMiddleware :=
  let '(answer, self') := self_bucket_take_token self in
  if answer then await_call_next request self'
  else (Raise (HTTPException 429 "Rate limit exceeded"), self').

(** The events of the trace that are calls of [take_token]. *)
Definition is_take_token (ev : event Request) : bool :=
  match ev with EvTakeToken _ => true | EvCallNext _ => false end.

End RateLimiterMiddleware.

Arguments RateLimiterMiddleware : clear implicits.

(** [bucket = TokenBucket(capacity=4, refill_rate=2)], created when the
    clock reads [now]. *)
Definition bucket_4_2 (now : Q) : TokenBucket.t := TokenBucket.init 4 2 now.

(** * The records of the upstream client *)

(** The objects that the [Nepse] client returns are JSON objects; each is
    given here with the keys that [main.py] reads.  [num] is the type of the
    JSON numbers, with Python's [0] and [+]. *)

Module Company.
Record t : Type := mk { symbol : string; sectorName : string }.
End Company.

Module TurnoverScrip.
Record t (num : Type) : Type := mk { symbol : string; turnover : num }.
Arguments mk {num}.
Arguments symbol {num}.
Arguments turnover {num}.
End TurnoverScrip.

Module TransactionScrip.
Record t (num : Type) : Type := mk { symbol : string; totalTrades : num }.
Arguments mk {num}.
Arguments symbol {num}.
Arguments totalTrades {num}.
End TransactionScrip.

Module TradeScrip.
Record t (num : Type) : Type := mk { symbol : string; shareTraded : num }.
Arguments mk {num}.
Arguments symbol {num}.
Arguments shareTraded {num}.
End TradeScrip.

(** An entry of the gainers or of the losers. *)
Module Mover.
Record t (num : Type) : Type := mk {
  symbol : string;
  pointChange : num;
  percentageChange : num;
  ltp : num;
}.
Arguments mk {num}.
Arguments symbol {num}.
Arguments pointChange {num}.
Arguments percentageChange {num}.
Arguments ltp {num}.
End Mover.

Module PriceVolume.
Record t : Type := mk { symbol : string }.
End PriceVolume.

(** A sub-index, with the keys of [NepseIndexModel]. *)
Module SubIndex.
Record t (num : Type) : Type := mk {
  index : string;
  currentValue : num;
  previousValue : num;
  pointChange : num;
  percentageChange : num;
}.
Arguments mk {num}.
Arguments index {num}.
Arguments currentValue {num}.
Arguments previousValue {num}.
Arguments pointChange {num}.
Arguments percentageChange {num}.
End SubIndex.

(** The client [nepse]: what each of its methods yields when
    [main.py] calls it.  [Json] is the type of the data that the two symbol
    routes pass through; [None] is Python's [None]. *)
Record Nepse (num Json : Type) : Type := {
  getCompanyList : result (list Company.t);
  getTopTenTurnoverScrips : result (list (TurnoverScrip.t num));
  getTopTenTransactionScrips : result (list (TransactionScrip.t num));
  getTopTenTradeScrips : result (list (TradeScrip.t num));
  getTopGainers : result (list (Mover.t num));
  getTopLosers : result (list (Mover.t num));
  getPriceVolume : result (list PriceVolume.t);
  getNepseSubIndices : result (list (SubIndex.t num));
  getDailyScripPriceGraph : string → result Json;
  getSymbolMarketDepth : string → result (option Json);
}.
Arguments getCompanyList {num Json}.
Arguments getTopTenTurnoverScrips {num Json}.
Arguments getTopTenTransactionScrips {num Json}.
Arguments getTopTenTradeScrips {num Json}.
Arguments getTopGainers {num Json}.
Arguments getTopLosers {num Json}.
Arguments getPriceVolume {num Json}.
Arguments getNepseSubIndices {num Json}.
Arguments getDailyScripPriceGraph {num Json}.
Arguments getSymbolMarketDepth {num Json}.

(** * The records that the aggregator builds *)

(** [company_details] *)
Module ScripDetails.
Record t (num : Type) : Type := mk {
  symbol : string;
  sectorName : string;
  totalTurnover : num;
  totalTrades : num;
  totalTradeQuantity : num;
  pointChange : num;
  percentageChange : num;
  ltp : num;
}.
Arguments mk {num}.
Arguments symbol {num}.
Arguments sectorName {num}.
Arguments totalTurnover {num}.
Arguments totalTrades {num}.
Arguments totalTradeQuantity {num}.
Arguments pointChange {num}.
Arguments percentageChange {num}.
Arguments ltp {num}.
End ScripDetails.

(** The value of [sector_details[sector]] *)
Module SectorDetails.
Record t (num : Type) : Type := mk {
  totalTrades : num;
  totalTradeQuantity : num;
  totalTurnover : num;
  index : SubIndex.t num;
  sectorName : string;
}.
Arguments mk {num}.
Arguments totalTrades {num}.
Arguments totalTradeQuantity {num}.
Arguments totalTurnover {num}.
Arguments index {num}.
Arguments sectorName {num}.
End SectorDetails.

(** What [get_trade_turnover_transaction_subindices] returns. *)
Record Statistics (num : Type) : Type := {
  scripsDetails : PyDict.dict (ScripDetails.t num);
  sectorsDetails : PyDict.dict (SectorDetails.t num);
}.
Arguments scripsDetails {num}.
Arguments sectorsDetails {num}.

(** * The routes *)

Section Routes.
Context {num Json : Type}.
(** Python's [0] and [+] on the JSON numbers. *)
Variable zero : num.
Variable add : num → num → num.
(** Python's [str(e)]. *)
Variable str : exn → string.
Variable nepse : Nepse num Json.

(** ** The two routes with a [symbol] path parameter *)

Definition get_daily_scrip_price_graph (symbol : string) : result Json :=
  try_except
    (getDailyScripPriceGraph nepse symbol)
    (fun e =>
       Raise (HTTPException 404
                ("Data for symbol " +:+ symbol +:+ " not found: " +:+ str e))).

Definition get_market_depth (symbol : string) : result Json :=
  try_except
    (data ← getSymbolMarketDepth nepse symbol;
     match data with
     | None =>
         Raise (HTTPException 404
                  ("Market depth for " +:+ symbol +:+ " not available"))
     | Some data => Ok data
     end)
    (fun e =>
       match e with
       | JSONDecodeError _ =>
           Raise (HTTPException 404 ("Invalid data received for " +:+ symbol))
       | _ =>
           Raise (HTTPException 500 ("Error fetching market depth: " +:+ str e))
       end).

(** ** The statistics aggregator *)

Definition _get_nepse_sub_indices : result (PyDict.dict (SubIndex.t num)) :=
  objs ← getNepseSubIndices nepse;
  for_in objs
    (fun response obj => Ok (PyDict.set response (SubIndex.index obj) obj))
    PyDict.empty.

(** this is done since nepse sub indices and sector name are different *)
Definition sector_mapper : PyDict.dict string :=
  [ ("Commercial Banks", "Banking SubIndex");
    ("Development Banks", "Development Bank Index");
    ("Finance", "Finance Index");
    ("Hotels And Tourism", "Hotels And Tourism Index");
    ("Hydro Power", "HydroPower Index");
    ("Investment", "Investment Index");
    ("Life Insurance", "Life Insurance");
    ("Manufacturing And Processing", "Manufacturing And Processing");
    ("Microfinance", "Microfinance Index");
    ("Mutual Fund", "Mutual Fund");
    ("Non Life Insurance", "Non Life Insurance");
    ("Others", "Others Index");
    ("Tradings", "Trading Index") ]%string.

Section Join.
(** The indexes by symbol of the leaders, the gainers and the losers. *)
Variable turnover : PyDict.dict (TurnoverScrip.t num).
Variable transaction : PyDict.dict (TransactionScrip.t num).
Variable trade : PyDict.dict (TradeScrip.t num).
Variable gainers losers : PyDict.dict (Mover.t num).

(** The body of the loop over [companies.items()], up to the assignment
    to [scrips_details[symbol]]. *)
Definition company_details (symbol : string) (company : Company.t)
  : result (ScripDetails.t num) :=
  totalTurnover ←
    (if PyDict.contains turnover symbol
     then o ← PyDict.getitem turnover symbol; Ok (TurnoverScrip.turnover o)
     else Ok zero);
  totalTrades ←
    (if PyDict.contains transaction symbol
     then o ← PyDict.getitem transaction symbol; Ok (TransactionScrip.totalTrades o)
     else Ok zero);
  totalTradeQuantity ←
    (if PyDict.contains transaction symbol
     then o ← PyDict.getitem trade symbol; Ok (TradeScrip.shareTraded o)
     else Ok zero);
  '(pointChange, percentageChange, ltp) ←
    (if PyDict.contains gainers symbol
     then o1 ← PyDict.getitem gainers symbol;
          o2 ← PyDict.getitem gainers symbol;
          o3 ← PyDict.getitem gainers symbol;
          Ok (Mover.pointChange o1, Mover.percentageChange o2, Mover.ltp o3)
     else if PyDict.contains losers symbol
     then o1 ← PyDict.getitem losers symbol;
          o2 ← PyDict.getitem losers symbol;
          o3 ← PyDict.getitem losers symbol;
          Ok (Mover.pointChange o1, Mover.percentageChange o2, Mover.ltp o3)
     else Ok (zero, zero, zero));
  Ok {| ScripDetails.symbol := symbol;
        ScripDetails.sectorName := Company.sectorName company;
        ScripDetails.totalTurnover := totalTurnover;
        ScripDetails.totalTrades := totalTrades;
        ScripDetails.totalTradeQuantity := totalTradeQuantity;
        ScripDetails.pointChange := pointChange;
        ScripDetails.percentageChange := percentageChange;
        ScripDetails.ltp := ltp |}.

(** The loop over [companies.items()]. *)
Definition build_scrips_details (companies : PyDict.dict Company.t)
  : result (PyDict.dict (ScripDetails.t num)) :=
  for_in (PyDict.items companies)
    (fun scrips_details '(symbol, company) =>
       details ← company_details symbol company;
       Ok (PyDict.set scrips_details symbol details))
    PyDict.empty.

End Join.

(** The inner loop over [scrips_details.values()]: the three running
    totals of one sector. *)
Definition sector_totals (scrips_details : PyDict.dict (ScripDetails.t num))
    (sector : string) : num * num * num :=
  foldl
    (fun '(total_trades, total_trade_quantity, total_turnover) scrip_details =>
       if decide (ScripDetails.sectorName scrip_details = sector)
       then (add total_trades (ScripDetails.totalTrades scrip_details),
             add total_trade_quantity (ScripDetails.totalTradeQuantity scrip_details),
             add total_turnover (ScripDetails.totalTurnover scrip_details))
       else (total_trades, total_trade_quantity, total_turnover))
    (zero, zero, zero)
    (PyDict.values scrips_details).

(** The loop over [sectors].  Python does not fix the order in which a set
    is traversed; [sectors] arrives here in the order of the traversal,
    which neither the success of the loop nor the lookups in its result
    depend on ([build_sector_details_order]). *)
Definition build_sector_details
    (sector_sub_indices : PyDict.dict (SubIndex.t num))
    (scrips_details : PyDict.dict (ScripDetails.t num))
    (sectors : list string) : result (PyDict.dict (SectorDetails.t num)) :=
  for_in sectors
    (fun sector_details sector =>
       let '(total_trades, total_trade_quantity, total_turnover) :=
         sector_totals scrips_details sector in
       label ← PyDict.getitem sector_mapper sector;
       index ← PyDict.getitem sector_sub_indices label;
       Ok (PyDict.set sector_details sector
             {| SectorDetails.totalTrades := total_trades;
                SectorDetails.totalTradeQuantity := total_trade_quantity;
                SectorDetails.totalTurnover := total_turnover;
                SectorDetails.index := index;
                SectorDetails.sectorName := sector |}))
    PyDict.empty.

Definition get_trade_turnover_transaction_subindices : result (Statistics num) :=
  companyList ← getCompanyList nepse;
  let companies := PyDict.comprehension Company.symbol id companyList in
  turnoverScrips ← getTopTenTurnoverScrips nepse;
  let turnover := PyDict.comprehension TurnoverScrip.symbol id turnoverScrips in
  transactionScrips ← getTopTenTransactionScrips nepse;
  let transaction := PyDict.comprehension TransactionScrip.symbol id transactionScrips in
  tradeScrips ← getTopTenTradeScrips nepse;
  let trade := PyDict.comprehension TradeScrip.symbol id tradeScrips in
  topGainers ← getTopGainers nepse;
  let gainers := PyDict.comprehension Mover.symbol id topGainers in
  topLosers ← getTopLosers nepse;
  let losers := PyDict.comprehension Mover.symbol id topLosers in
  priceVolume ← getPriceVolume nepse;
  let price_vol_info := PyDict.comprehension PriceVolume.symbol id priceVolume in
  sector_sub_indices ← _get_nepse_sub_indices;
  scrips_details ←
    build_scrips_details turnover transaction trade gainers losers companies;
  let sectors : gset string :=
    list_to_set (map Company.sectorName (PyDict.values companies)) in
  sector_details ←
    build_sector_details sector_sub_indices scrips_details (elements sectors);
  Ok {| scripsDetails := scrips_details; sectorsDetails := sector_details |}.

End Routes.

(** * Vocabulary of the statements *)

(** The text [detail] names [symbol]. *)
Definition names (detail symbol : string) : Prop :=
  ∃ before after : string, detail = before +:+ symbol +:+ after.

(** What the fetches of the aggregator yield when none of them raises. *)
Record Feeds (num : Type) : Type := {
  companyList : list Company.t;
  turnoverScrips : list (TurnoverScrip.t num);
  transactionScrips : list (TransactionScrip.t num);
  tradeScrips : list (TradeScrip.t num);
  topGainers : list (Mover.t num);
  topLosers : list (Mover.t num);
  priceVolume : list PriceVolume.t;
  subIndices : list (SubIndex.t num);
}.
Arguments companyList {num}.
Arguments turnoverScrips {num}.
Arguments transactionScrips {num}.
Arguments tradeScrips {num}.
Arguments topGainers {num}.
Arguments topLosers {num}.
Arguments priceVolume {num}.
Arguments subIndices {num}.

Definition fetched {num Json} (nepse : Nepse num Json) (feeds : Feeds num) : Prop :=
  getCompanyList nepse = Ok (companyList feeds)
  ∧ getTopTenTurnoverScrips nepse = Ok (turnoverScrips feeds)
  ∧ getTopTenTransactionScrips nepse = Ok (transactionScrips feeds)
  ∧ getTopTenTradeScrips nepse = Ok (tradeScrips feeds)
  ∧ getTopGainers nepse = Ok (topGainers feeds)
  ∧ getTopLosers nepse = Ok (topLosers feeds)
  ∧ getPriceVolume nepse = Ok (priceVolume feeds)
  ∧ getNepseSubIndices nepse = Ok (subIndices feeds).

(** A client that serves [feeds]; its symbol lookups find nothing. *)
Definition client_of {num} (feeds : Feeds num) : Nepse num unit :=
  {| getCompanyList := Ok (companyList feeds);
     getTopTenTurnoverScrips := Ok (turnoverScrips feeds);
     getTopTenTransactionScrips := Ok (transactionScrips feeds);
     getTopTenTradeScrips := Ok (tradeScrips feeds);
     getTopGainers := Ok (topGainers feeds);
     getTopLosers := Ok (topLosers feeds);
     getPriceVolume := Ok (priceVolume feeds);
     getNepseSubIndices := Ok (subIndices feeds);
     getDailyScripPriceGraph := fun symbol => Raise (KeyError symbol);
     getSymbolMarketDepth := fun _ => Ok None |}.

(** [company] is the entry of the company list for its symbol: no later
    entry of the list carries the same symbol and replaces it in
    [companies].  When the symbols of the list are distinct, these are the
    members of the list. *)
Definition listed (companyList : list Company.t) (company : Company.t) : Prop :=
  last (filter (fun o => Company.symbol o = Company.symbol company) companyList)
  = Some company.

(** [{o[key]: o for o in xs}]: a collection indexed the way the aggregator
    indexes its feeds. *)
Definition index_by {A} (key : A → string) (xs : list A) : PyDict.dict A :=
  PyDict.comprehension key id xs.

(** The body of a loop [for x in xs: d[key(x)] = f(x)]. *)
Definition fill {A V} (key : A → string) (f : A → result V)
    (d : PyDict.dict V) (x : A) : result (PyDict.dict V) :=
  v ← f x; Ok (PyDict.set d (key x) v).

Section Vocabulary.
Context {num : Type}.
Variable zero : num.
Variable add : num → num → num.

(** The value of [field] at the entry of [symbol] in a collection indexed
    by symbol, and [0] when the collection has no such entry. *)
Definition value_or_zero {A} (collection : PyDict.dict A) (field : A → num)
    (symbol : string) : num :=
  match PyDict.get collection symbol with
  | Some o => field o
  | None => zero
  end.

(** Point change, percentage change and last traded price of [symbol]:
    from the gainers, else from the losers, else zeros. *)
Definition change_of (gainers losers : PyDict.dict (Mover.t num))
    (symbol : string) : num * num * num :=
  match PyDict.get gainers symbol with
  | Some o => (Mover.pointChange o, Mover.percentageChange o, Mover.ltp o)
  | None =>
      match PyDict.get losers symbol with
      | Some o => (Mover.pointChange o, Mover.percentageChange o, Mover.ltp o)
      | None => (zero, zero, zero)
      end
  end.

(** The sum of a list of numbers, added from the left starting at [0]. *)
Definition total (xs : list num) : num := foldl add zero xs.

(** The records of the scrips of one sector, in the order of
    [scrips_details]. *)
Definition members (scrips_details : PyDict.dict (ScripDetails.t num))
    (sector : string) : list (ScripDetails.t num) :=
  filter (fun r => ScripDetails.sectorName r = sector)
    (PyDict.values scrips_details).

(** What the loop over [sectors] stores under [sector]. *)
Definition sector_record (sector_sub_indices : PyDict.dict (SubIndex.t num))
    (scrips_details : PyDict.dict (ScripDetails.t num)) (sector : string)
  : result (SectorDetails.t num) :=
  let '(total_trades, total_trade_quantity, total_turnover) :=
    sector_totals zero add scrips_details sector in
  label ← PyDict.getitem sector_mapper sector;
  index ← PyDict.getitem sector_sub_indices label;
  Ok {| SectorDetails.totalTrades := total_trades;
        SectorDetails.totalTradeQuantity := total_trade_quantity;
        SectorDetails.totalTurnover := total_turnover;
        SectorDetails.index := index;
        SectorDetails.sectorName := sector |}.

End Vocabulary.

(** * Sample inputs *)

(** A [str] for the samples: the message of the exception; for an
    [HTTPException], its status code and its detail. *)
Definition sample_str (e : exn) : string :=
  match e with
  | KeyError key => "'" +:+ key +:+ "'"
  | JSONDecodeError msg => msg
  | HTTPException status_code detail => pretty status_code +:+ ": " +:+ detail
  | Exception msg => msg
  end.

(** A client all of whose collections are empty and whose symbol lookups
    answer [daily] and [depth]. *)
Definition sample_client (daily : result unit) (depth : result (option unit))
  : Nepse Z unit :=
  {| getCompanyList := Ok [];
     getTopTenTurnoverScrips := Ok [];
     getTopTenTransactionScrips := Ok [];
     getTopTenTradeScrips := Ok [];
     getTopGainers := Ok [];
     getTopLosers := Ok [];
     getPriceVolume := Ok [];
     getNepseSubIndices := Ok [];
     getDailyScripPriceGraph := fun _ => daily;
     getSymbolMarketDepth := fun _ => depth |}.

(** An application that answers every request with [()] and counts the
    requests it has seen. *)
Definition sample_call_next (request : string) (seen : nat) : result unit * nat :=
  (Ok (), S seen).

(** ** Sample feeds *)

Definition sample_sub_index (index : string) : SubIndex.t Z :=
  {| SubIndex.index := index; SubIndex.currentValue := 1000;
     SubIndex.previousValue := 990; SubIndex.pointChange := 10;
     SubIndex.percentageChange := 1 |}.

(** Two scrips of "Finance", with turnovers 100 and 250, and one of
    "Others" that no feed mentions; "AAA" is both a gainer and a loser;
    "BBB" is a trade-volume leader but not a transaction leader. *)
Definition sample_feeds : Feeds Z :=
  {| companyList :=
       [ Company.mk "AAA" "Finance"; Company.mk "BBB" "Finance";
         Company.mk "CCC" "Others" ];
     turnoverScrips := [ TurnoverScrip.mk "AAA" 100; TurnoverScrip.mk "BBB" 250 ];
     transactionScrips := [ TransactionScrip.mk "AAA" 7 ];
     tradeScrips := [ TradeScrip.mk "AAA" 9; TradeScrip.mk "BBB" 500 ];
     topGainers := [ Mover.mk "AAA" 5 2 255 ];
     topLosers := [ Mover.mk "AAA" (-5) (-2) 245; Mover.mk "BBB" (-3) (-1) 297 ];
     priceVolume := [];
     subIndices := [ sample_sub_index "Finance Index";
                     sample_sub_index "Others Index" ] |}.

(** "BBB" is a transaction leader but not a trade-volume leader. *)
Definition sample_feeds_transaction_only : Feeds Z :=
  {| companyList := [ Company.mk "AAA" "Finance"; Company.mk "BBB" "Finance" ];
     turnoverScrips := [];
     transactionScrips := [ TransactionScrip.mk "BBB" 12 ];
     tradeScrips := [ TradeScrip.mk "AAA" 9 ];
     topGainers := [];
     topLosers := [];
     priceVolume := [];
     subIndices := [ sample_sub_index "Finance Index" ] |}.

(** A company of a sector that [sector_mapper] does not know. *)
Definition sample_feeds_unknown_sector : Feeds Z :=
  {| companyList := [ Company.mk "AAA" "Finance"; Company.mk "ZZZ" "Telecom" ];
     turnoverScrips := [];
     transactionScrips := [];
     tradeScrips := [];
     topGainers := [];
     topLosers := [];
     priceVolume := [];
     subIndices := [ sample_sub_index "Finance Index" ] |}.

(** What the route returns on [sample_feeds]. *)
Definition sample_statistics : Statistics Z :=
  Eval vm_compute in
    match get_trade_turnover_transaction_subindices 0 Z.add (client_of sample_feeds) with
    | Ok out => out
    | Raise _ => {| scripsDetails := []; sectorsDetails := [] |}
    end.

(** * The remaining routes *)

(** The table [routes]. *)
Definition routes : PyDict.dict string :=
  [ ("PriceVolume", "/price-volume");
    ("Summary", "/summary");
    ("SupplyDemand", "/supply-demand");
    ("TopGainers", "/top-gainers");
    ("TopLosers", "/top-losers");
    ("TopTenTradeScrips", "/top-ten-trade-scrips");
    ("TopTenTurnoverScrips", "/top-ten-turnover-scrips");
    ("TopTenTransactionScrips", "/top-ten-transaction-scrips");
    ("IsNepseOpen", "/is-nepse-open");
    ("NepseIndex", "/nepse-index");
    ("NepseSubIndices", "/nepse-sub-indices");
    ("DailyNepseIndexGraph", "/daily-Nep-graph");
    ("DailyScripPriceGraph", "/daily-scrip-price-graph");
    ("CompanyList", "/company-list");
    ("SecurityList", "/security-list");
    ("TradeTurnoverTransactionSubindices", "/trade-turnover-transaction-subindices");
    ("LiveMarket", "/live-market");
    ("MarketDepth", "/market-depth") ]%string.

(** An entry of the market summary. *)
Module SummaryItem.
Record t (num : Type) : Type := mk { detail : string; value : num }.
Arguments mk {num}.
Arguments detail {num}.
Arguments value {num}.
End SummaryItem.

(** An entry of the security list. *)
Module Security.
Record t : Type := mk { symbol : string }.
End Security.

(** The methods of the client [nepse] that the routes below call. *)
Record NepseRest (num : Type) : Type := {
  getSummary : result (list (SummaryItem.t num));
  getNepseIndex : result (list (SubIndex.t num));
  getSecurityList : result (list Security.t);
}.
Arguments getSummary {num}.
Arguments getNepseIndex {num}.
Arguments getSecurityList {num}.

(** [HTMLResponse(content=…)] *)
Record HTMLResponse : Type := { content : string }.

(** [sep.join(xs)] *)
Fixpoint join (sep : string) (xs : list string) : string :=
  match xs with
  | [] => ""
  | [x] => x
  | x :: xs' => x +:+ sep +:+ join sep xs'
  end.

Section RemainingRoutes.
Context {num : Type}.
Variable nepse : NepseRest num.

Definition _getSummary : result (PyDict.dict num) :=
  objs ← getSummary nepse;
  for_in objs
    (fun response obj =>
       Ok (PyDict.set response (SummaryItem.detail obj) (SummaryItem.value obj)))
    PyDict.empty.

Definition _get_nepse_index : result (PyDict.dict (SubIndex.t num)) :=
  objs ← getNepseIndex nepse;
  for_in objs
    (fun response obj => Ok (PyDict.set response (SubIndex.index obj) obj))
    PyDict.empty.

Definition list_daily_scrip_price_graph : result HTMLResponse :=
  symbols ← getSecurityList nepse;
  response ←
    for_in symbols
      (fun links symbol =>
         path ← PyDict.getitem routes "DailyScripPriceGraph";
         Ok (links ++
               [ "<a href=" +:+ path +:+ "/" +:+ Security.symbol symbol +:+ "> "
                 +:+ Security.symbol symbol +:+ " </a>" ]))
      [];
  Ok {| content := "<h1>Available Scrips</h1>" +:+ join "<BR>" response |}.

Definition list_market_depth : result HTMLResponse :=
  symbols ← getSecurityList nepse;
  response ←
    for_in symbols
      (fun links symbol =>
         path ← PyDict.getitem routes "MarketDepth";
         Ok (links ++
               [ "<a href=" +:+ path +:+ "/" +:+ Security.symbol symbol +:+ "> "
                 +:+ Security.symbol symbol +:+ " </a>" ]))
      [];
  Ok {| content :=
          "<h1>Market Depth - Available Symbols</h1>" +:+ join "<BR>" response |}.

End RemainingRoutes.

(** ** More vocabulary *)

(** The exception of the first of the results that is one. *)
Fixpoint first_exception (outcomes : list (option exn)) : option exn :=
  match outcomes with
  | [] => None
  | Some e :: _ => Some e
  | None :: outcomes' => first_exception outcomes'
  end.

Definition exception_of {A} (r : result A) : option exn :=
  match r with Ok _ => None | Raise e => Some e end.

(** The exception of the first fetch of the aggregator that raises, in the
    order in which the route fetches. *)
Definition first_fetch_exception {num Json} (nepse : Nepse num Json) : option exn :=
  first_exception
    [ exception_of (getCompanyList nepse);
      exception_of (getTopTenTurnoverScrips nepse);
      exception_of (getTopTenTransactionScrips nepse);
      exception_of (getTopTenTradeScrips nepse);
      exception_of (getTopGainers nepse);
      exception_of (getTopLosers nepse);
      exception_of (getPriceVolume nepse);
      exception_of (getNepseSubIndices nepse) ].

(** The anchor that the list pages write for [symbol] under [path]. *)
Definition anchor (path symbol : string) : string :=
  "<a href=" +:+ path +:+ "/" +:+ symbol +:+ "> " +:+ symbol +:+ " </a>".

(** ** More samples *)

Definition sample_rest : NepseRest Z :=
  {| getSummary :=
       Ok [ SummaryItem.mk "Total Turnover Rs:" 100;
            SummaryItem.mk "Total Traded Shares" 20;
            SummaryItem.mk "Total Turnover Rs:" 300 ];
     getNepseIndex :=
       Ok [ sample_sub_index "NEPSE Index"; sample_sub_index "Float Index" ];
     getSecurityList := Ok [ Security.mk "NABIL"; Security.mk "NICA" ] |}.

(** The company list is there; the price-volume fetch times out. *)
Definition sample_client_price_volume_down : Nepse Z unit :=
  {| getCompanyList := Ok (companyList sample_feeds);
     getTopTenTurnoverScrips := Ok (turnoverScrips sample_feeds);
     getTopTenTransactionScrips := Ok (transactionScrips sample_feeds);
     getTopTenTradeScrips := Ok (tradeScrips sample_feeds);
     getTopGainers := Ok (topGainers sample_feeds);
     getTopLosers := Ok (topLosers sample_feeds);
     getPriceVolume := Raise (Exception "timed out");
     getNepseSubIndices := Ok (subIndices sample_feeds);
     getDailyScripPriceGraph := fun symbol => Raise (KeyError symbol);
     getSymbolMarketDepth := fun _ => Ok None |}.

(** [sample_feeds] with another price-volume feed. *)
Definition sample_feeds_price_volume : Feeds Z :=
  {| companyList := companyList sample_feeds;
     turnoverScrips := turnoverScrips sample_feeds;
     transactionScrips := transactionScrips sample_feeds;
     tradeScrips := tradeScrips sample_feeds;
     topGainers := topGainers sample_feeds;
     topLosers := topLosers sample_feeds;
     priceVolume := [ PriceVolume.mk "AAA"; PriceVolume.mk "QQQ" ];
     subIndices := subIndices sample_feeds |}.

(** The middleware of [main.py], with its bucket of capacity 4, after four
    requests admitted at the clock reading 0: the bucket is empty and the
    application has seen four requests. *)
Definition sample_middleware_exhausted
  : RateLimiterMiddleware TokenBucket.t nat string :=
  {| bucket := (TokenBucket.take_tokens (replicate 4 0%Q) (bucket_4_2 0)).2;
     app := 4%nat;
     trace := [] |}.
(** * Facts about dictionaries *)

Module PyDictFacts.
Import PyDict.

Section Facts.
Context {V : Type}.
Implicit Types (d : dict V) (k : string) (v : V).

Lemma get_set d k v k' :
  get (set d k v) k' = if decide (k' = k) then Some v else get d k'.
Proof.
  induction d as [|[k0 v0] d IH]; simpl.
  - by destruct (decide (k' = k)).
  - destruct (decide (k = k0)) as [->|Hne]; simpl.
    + by destruct (decide (k' = k0)).
    + rewrite IH. destruct (decide (k' = k0)) as [->|]; [|done].
      destruct (decide (k0 = k)); congruence.
Qed.

Lemma get_set_eq d k v : get (set d k v) k = Some v.
Proof. rewrite get_set. by rewrite decide_True. Qed.

Lemma get_set_ne d k v k' : k' ≠ k → get (set d k v) k' = get d k'.
Proof. intros. rewrite get_set. by rewrite decide_False. Qed.

Lemma get_None d k : get d k = None ↔ k ∉ keys d.
Proof.
  induction d as [|[k0 v0] d IH]; simpl.
  - split; [intros _; apply not_elem_of_nil | done].
  - rewrite not_elem_of_cons. destruct (decide (k = k0)); naive_solver.
Qed.

Lemma get_is_Some d k : is_Some (get d k) ↔ k ∈ keys d.
Proof.
  rewrite <- not_eq_None_Some, get_None.
  destruct (decide (k ∈ keys d)); naive_solver.
Qed.

Lemma contains_true d k : contains d k = true ↔ k ∈ keys d.
Proof.
  rewrite <- get_is_Some. unfold contains.
  destruct (get d k); split; intros H; try done; by destruct H.
Qed.

Lemma contains_false d k : contains d k = false ↔ k ∉ keys d.
Proof.
  rewrite <- contains_true. destruct (contains d k); naive_solver.
Qed.

(** Assigning to an absent key appends; the keys stay distinct. *)
Lemma set_fresh d k v : k ∉ keys d → set d k v = d ++ [(k, v)].
Proof.
  induction d as [|[k0 v0] d IH]; simpl; [done|].
  rewrite not_elem_of_cons. intros [Hne Hnin].
  rewrite decide_False by done. by rewrite IH.
Qed.

Lemma elem_of_keys_set d k v k' : k' ∈ keys (set d k v) ↔ k' = k ∨ k' ∈ keys d.
Proof.
  rewrite <- !get_is_Some, get_set.
  destruct (decide (k' = k)); naive_solver.
Qed.

Lemma NoDup_keys_set d k v : NoDup (keys d) → NoDup (keys (set d k v)).
Proof.
  induction d as [|[k0 v0] d IH]; simpl.
  - intros _. apply NoDup_singleton.
  - rewrite NoDup_cons. intros [Hnin Hnd].
    destruct (decide (k = k0)) as [->|Hne]; simpl.
    + by apply NoDup_cons.
    + apply NoDup_cons. split; [|by apply IH].
      fold (keys (set d k v)). rewrite elem_of_keys_set. naive_solver.
Qed.

(** With distinct keys, the items are exactly the successful lookups. *)
Lemma elem_of_items d k v : NoDup (keys d) → (k, v) ∈ items d ↔ get d k = Some v.
Proof.
  unfold items. induction d as [|[k0 v0] d IH]; simpl.
  - intros _. split; [by intros ?%elem_of_nil | done].
  - rewrite NoDup_cons. intros [Hnin Hnd]. rewrite elem_of_cons.
    destruct (decide (k = k0)) as [->|Hne].
    + split; [|naive_solver]. intros [?|Hin]; [naive_solver|].
      destruct Hnin. apply list_elem_of_fmap. by exists (k0, v).
    + rewrite IH by done. naive_solver.
Qed.

Lemma elem_of_values d v : NoDup (keys d) → v ∈ values d ↔ ∃ k, get d k = Some v.
Proof.
  intros Hnd. unfold values. rewrite list_elem_of_fmap. split.
  - intros [[k v'] [-> Hin]]. exists k. by apply elem_of_items.
  - intros [k Hk]. exists (k, v). split; [done|]. by apply elem_of_items.
Qed.

End Facts.

Section Comprehension.
Context {A V : Type} (key : A → string) (val : A → V).

Lemma NoDup_keys_foldl (xs : list A) (d : dict V) :
  NoDup (keys d) → NoDup (keys (foldl (fun d o => set d (key o) (val o)) d xs)).
Proof.
  revert d. induction xs as [|x xs IH]; simpl; [done|].
  intros d Hd. by apply IH, NoDup_keys_set.
Qed.

Lemma NoDup_keys_comprehension (xs : list A) :
  NoDup (keys (comprehension key val xs)).
Proof. apply NoDup_keys_foldl. apply NoDup_nil_2. Qed.

(** Last write wins: a lookup finds the last element carrying the key. *)
Lemma get_foldl (xs : list A) (d : dict V) k :
  get (foldl (fun d o => set d (key o) (val o)) d xs) k =
  match last (filter (fun o => key o = k) xs) with
  | Some o => Some (val o)
  | None => get d k
  end.
Proof.
  revert d. induction xs as [|x xs IH]; intros d; simpl; [done|].
  rewrite IH, get_set, filter_cons.
  destruct (decide (key x = k)) as [Hk|Hk].
  - rewrite decide_True by done. rewrite last_cons.
    by destruct (last (filter _ xs)).
  - by rewrite decide_False by done.
Qed.

Lemma get_comprehension (xs : list A) k :
  get (comprehension key val xs) k = val <$> last (filter (fun o => key o = k) xs).
Proof.
  unfold comprehension. rewrite get_foldl.
  by destruct (last (filter _ xs)).
Qed.

Lemma elem_of_keys_comprehension (xs : list A) k :
  k ∈ keys (comprehension key val xs) ↔ k ∈ map key xs.
Proof.
  rewrite <- get_is_Some, get_comprehension, fmap_is_Some.
  rewrite list_elem_of_fmap. split.
  - intros [o Ho]. apply last_Some_elem_of in Ho.
    apply list_elem_of_filter in Ho as [? ?]. by exists o.
  - intros (o & -> & Hin).
    assert (Hf : o ∈ filter (fun o' => key o' = key o) xs)
      by by apply list_elem_of_filter.
    destruct (filter _ xs) as [|y ys] eqn:E; [by apply elem_of_nil in Hf|].
    rewrite last_is_Some. done.
Qed.

End Comprehension.

End PyDictFacts.

(** * The rate limiter *)

Section RateLimiterFacts.
Context {Bucket App Request Response : Type}.
Variable take_token : Bucket → bool * Bucket.
Variable call_next : Request → App → result Response * App.
Implicit Types (self : RateLimiterMiddleware Bucket App Request).

Lemma self_bucket_take_token_eq self :
  self_bucket_take_token take_token self =
  ((take_token (bucket self)).1,
   {| bucket := (take_token (bucket self)).2; app := app self;
      trace := trace self ++ [EvTakeToken (take_token (bucket self)).1] |}).
Proof. unfold self_bucket_take_token. by destruct (take_token (bucket self)). Qed.

Lemma dispatch_rejected self request :
  (take_token (bucket self)).1 = false →
  dispatch take_token call_next request self =
  (Raise (HTTPException 429 "Rate limit exceeded"),
   {| bucket := (take_token (bucket self)).2; app := app self;
      trace := trace self ++ [EvTakeToken false] |}).
Proof.
  intros Hno. unfold dispatch. rewrite self_bucket_take_token_eq, Hno. done.
Qed.

Lemma dispatch_admitted self request :
  (take_token (bucket self)).1 = true →
  dispatch take_token call_next request self =
  ((call_next request (app self)).1,
   {| bucket := (take_token (bucket self)).2;
      app := (call_next request (app self)).2;
      trace := trace self ++ [EvTakeToken true; EvCallNext request] |}).
Proof.
  intros Hyes. unfold dispatch. rewrite self_bucket_take_token_eq, Hyes.
  unfold await_call_next; simpl.
  destruct (call_next request (app self)); simpl.
  by rewrite <- app_assoc.
Qed.

(** Every call of [dispatch] asks the bucket for a token exactly once,
    and before anything else: the events it adds to the trace start with
    the one [take_token] and hold no other.  When the answer is [false] the
    call raises [HTTPException(429, "Rate limit exceeded")], the
    application is not called and its state is untouched; when the answer
    is [true] the request goes, as it came, to [call_next], whose outcome
    is the outcome of the call. *)
Lemma dispatch_takes_one_token_first self request :
  let answer := (take_token (bucket self)).1 in
  let outcome := dispatch take_token call_next request self in
  ∃ later : list (event Request),
    trace outcome.2 = trace self ++ EvTakeToken answer :: later
    ∧ filter is_take_token later = []
    ∧ bucket outcome.2 = (take_token (bucket self)).2
    ∧ (if answer
       then later = [EvCallNext request]
            ∧ outcome.1 = (call_next request (app self)).1
            ∧ app outcome.2 = (call_next request (app self)).2
       else later = []
            ∧ outcome.1 = Raise (HTTPException 429 "Rate limit exceeded")
            ∧ app outcome.2 = app self).
Proof.
  simpl. destruct (take_token (bucket self)).1 eqn:Hanswer.
  - rewrite dispatch_admitted by done. simpl.
    exists [EvCallNext request]. done.
  - rewrite dispatch_rejected by done. simpl.
    exists []. done.
Qed.

End RateLimiterFacts.

(** * The two symbol routes *)

Section SymbolRouteFacts.
Context {num Json : Type}.
Variable str : exn → string.
Variable nepse : Nepse num Json.

Lemma names_middle (before symbol after : string) :
  names (before +:+ symbol +:+ after) symbol.
Proof. by exists before, after. Qed.

Lemma names_end (before symbol : string) : names (before +:+ symbol) symbol.
Proof.
  exists before, ""%string. f_equal.
  induction symbol as [|a s IH]; [done|].
  change (String a s = String a (s +:+ "")). by f_equal.
Qed.

(** The daily price graph passes the client's data through and turns every
    exception into a 404 that names the symbol. *)
Lemma get_daily_scrip_price_graph_Ok symbol data :
  getDailyScripPriceGraph nepse symbol = Ok data →
  get_daily_scrip_price_graph str nepse symbol = Ok data.
Proof. unfold get_daily_scrip_price_graph. by intros ->. Qed.

Lemma get_daily_scrip_price_graph_Raise symbol e :
  getDailyScripPriceGraph nepse symbol = Raise e →
  get_daily_scrip_price_graph str nepse symbol =
  Raise (HTTPException 404
           ("Data for symbol " +:+ symbol +:+ " not found: " +:+ str e)).
Proof. unfold get_daily_scrip_price_graph. by intros ->. Qed.

Lemma get_daily_scrip_price_graph_names symbol e :
  getDailyScripPriceGraph nepse symbol = Raise e →
  ∃ detail, get_daily_scrip_price_graph str nepse symbol =
              Raise (HTTPException 404 detail) ∧ names detail symbol.
Proof.
  intros H. rewrite (get_daily_scrip_price_graph_Raise _ _ H).
  eexists. split; [done|]. apply names_middle.
Qed.

(** Market depth: data passes through; unparsable data is a 404 that names
    the symbol. *)
Lemma get_market_depth_Ok symbol data :
  getSymbolMarketDepth nepse symbol = Ok (Some data) →
  get_market_depth str nepse symbol = Ok data.
Proof. unfold get_market_depth. by intros ->. Qed.

Lemma get_market_depth_JSONDecodeError symbol msg :
  getSymbolMarketDepth nepse symbol = Raise (JSONDecodeError msg) →
  get_market_depth str nepse symbol =
  Raise (HTTPException 404 ("Invalid data received for " +:+ symbol)).
Proof. unfold get_market_depth. by intros ->. Qed.

Lemma get_market_depth_JSONDecodeError_names symbol msg :
  getSymbolMarketDepth nepse symbol = Raise (JSONDecodeError msg) →
  ∃ detail, get_market_depth str nepse symbol =
              Raise (HTTPException 404 detail) ∧ names detail symbol.
Proof.
  intros H. rewrite (get_market_depth_JSONDecodeError _ _ H).
  eexists. split; [done|]. apply names_end.
Qed.

Lemma get_market_depth_Raise symbol e :
  getSymbolMarketDepth nepse symbol = Raise e →
  (∀ msg, e ≠ JSONDecodeError msg) →
  get_market_depth str nepse symbol =
  Raise (HTTPException 500 ("Error fetching market depth: " +:+ str e)).
Proof.
  unfold get_market_depth. intros -> Hne. simpl.
  destruct e; try done. by destruct (Hne msg).
Qed.

(** The 404 that the route raises for [None] is raised inside the [try];
    [except Exception] catches it and a 500 leaves the route. *)
Lemma get_market_depth_None symbol :
  getSymbolMarketDepth nepse symbol = Ok None →
  get_market_depth str nepse symbol =
  Raise (HTTPException 500
           ("Error fetching market depth: " +:+
            str (HTTPException 404
                   ("Market depth for " +:+ symbol +:+ " not available")))).
Proof. unfold get_market_depth. by intros ->. Qed.

(** C3, as amended.  On the market-depth route, an exception of the client
    other than [JSONDecodeError] leaves the route as a 500 whose detail
    is "Error fetching market depth: " followed by the message of the
    exception; on the daily-price-graph route, every exception of the
    client, [JSONDecodeError] included, leaves the route as a 404 whose
    detail names the symbol and ends with the message of the exception. *)
Theorem C3_other_failures_500_on_market_depth_only symbol e :
  (getDailyScripPriceGraph nepse symbol = Raise e →
   get_daily_scrip_price_graph str nepse symbol =
   Raise (HTTPException 404
            ("Data for symbol " +:+ symbol +:+ " not found: " +:+ str e)))
  ∧ ((∀ msg, e ≠ JSONDecodeError msg) →
     getSymbolMarketDepth nepse symbol = Raise e →
     get_market_depth str nepse symbol =
     Raise (HTTPException 500 ("Error fetching market depth: " +:+ str e))).
Proof.
  split.
  - intros H. by apply get_daily_scrip_price_graph_Raise.
  - intros Hne H. by apply get_market_depth_Raise.
Qed.

End SymbolRouteFacts.

(** The amended C3 at a client whose calls time out, and at a client whose
    daily price graph does not parse. *)
Lemma C3_witness :
  get_market_depth sample_str
    (sample_client (Raise (Exception "timed out")) (Raise (Exception "timed out")))
    "NABIL"
  = Raise (HTTPException 500 "Error fetching market depth: timed out")
  ∧ get_daily_scrip_price_graph sample_str
      (sample_client (Raise (Exception "timed out")) (Raise (Exception "timed out")))
      "NABIL"
    = Raise (HTTPException 404 "Data for symbol NABIL not found: timed out")
  ∧ get_daily_scrip_price_graph sample_str
      (sample_client (Raise (JSONDecodeError "Expecting value")) (Ok None))
      "NABIL"
    = Raise (HTTPException 404 "Data for symbol NABIL not found: Expecting value").
Proof.
  destruct (C3_other_failures_500_on_market_depth_only sample_str
              (sample_client (Raise (Exception "timed out"))
                 (Raise (Exception "timed out")))
              "NABIL" (Exception "timed out")) as [Hdaily Hdepth].
  destruct (C3_other_failures_500_on_market_depth_only sample_str
              (sample_client (Raise (JSONDecodeError "Expecting value")) (Ok None))
              "NABIL" (JSONDecodeError "Expecting value")) as [Hdaily' _].
  split; [|split].
  - apply Hdepth; [intros msg; discriminate | reflexivity].
  - apply Hdaily. reflexivity.
  - apply Hdaily'. reflexivity.
Defined.

(** C3, as stated, fails on the daily-price-graph route: a time-out of the
    client, which is neither a rejection by the rate limiter nor a missing
    symbol nor malformed data, leaves the route as a 404, not as a 500. *)
Lemma C3_counterexample :
  get_daily_scrip_price_graph sample_str
    (sample_client (Raise (Exception "timed out")) (Ok None)) "NABIL"
  = Raise (HTTPException 404 "Data for symbol NABIL not found: timed out")
  ∧ ¬ (∃ detail,
         get_daily_scrip_price_graph sample_str
           (sample_client (Raise (Exception "timed out")) (Ok None)) "NABIL"
         = Raise (HTTPException 500 detail)).
Proof.
  split; [reflexivity|]. intros [detail H]. discriminate H.
Qed.

(** C2 at the failing input.  The client has no market depth for "NABIL"
    and returns [None]: the route answers 500, not 404. *)
Theorem C2_market_depth_None_is_500 :
  get_market_depth sample_str (sample_client (Ok ()) (Ok None)) "NABIL"
  = Raise (HTTPException 500
      "Error fetching market depth: 404: Market depth for NABIL not available").
Proof. reflexivity. Qed.

(** * The token bucket *)

Module TokenBucketFacts.
Import TokenBucket.
Local Open Scope Q_scope.

Lemma capped_le (cap : Z) (x : Q) : capped cap x <= inject_Z cap.
Proof.
  unfold capped. destruct (Qle_bool (inject_Z cap) x) eqn:E.
  - apply Qle_refl.
  - apply Qlt_le_weak, Qnot_le_lt. intros H%Qle_bool_iff. congruence.
Qed.

Lemma capped_ge (cap : Z) (x : Q) : 0 <= inject_Z cap → 0 <= x → 0 <= capped cap x.
Proof.
  intros Hcap Hx. unfold capped.
  destruct (Qle_bool (inject_Z cap) x); assumption.
Qed.

(** Below the capacity, capping changes nothing. *)
Lemma capped_id (cap : Z) (x : Q) : x <= inject_Z cap → capped cap x == x.
Proof.
  unfold capped. destruct (Qle_bool (inject_Z cap) x) eqn:E; [|reflexivity].
  intros H. apply Qle_bool_iff in E. by apply Qle_antisym.
Qed.

Lemma take_token_capacity now b : capacity (take_token now b).2 = capacity b.
Proof. unfold take_token. by destruct (Qle_bool 1 _). Qed.

Lemma take_token_refill_rate now b : refill_rate (take_token now b).2 = refill_rate b.
Proof. unfold take_token. by destruct (Qle_bool 1 _). Qed.

Lemma take_token_last_refill now b : last_refill (take_token now b).2 = now.
Proof. unfold take_token. by destruct (Qle_bool 1 _). Qed.

(** One call keeps the invariant, whatever the time that has passed. *)
Lemma take_token_invariant now b :
  invariant b → last_refill b <= now → 0 <= refill_rate b →
  invariant (take_token now b).2.
Proof.
  intros [Hlo Hhi] Hnow Hrate. unfold invariant. rewrite take_token_capacity.
  assert (Hcap : 0 <= inject_Z (capacity b)) by lra.
  assert (Hgain : 0 <= (now - last_refill b) * refill_rate b).
  { apply Qmult_le_0_compat; lra. }
  pose proof (capped_le (capacity b)
                (tokens b + (now - last_refill b) * refill_rate b)) as Hle.
  assert (Hge : 0 <= capped (capacity b)
                       (tokens b + (now - last_refill b) * refill_rate b)).
  { apply capped_ge; lra. }
  unfold take_token.
  destruct (Qle_bool 1 (capped _ _)) eqn:E; simpl; [|by split].
  apply Qle_bool_iff in E. split; lra.
Qed.

Lemma take_tokens_cons now clock b :
  take_tokens (now :: clock) b =
  ((take_token now b).1 :: (take_tokens clock (take_token now b).2).1,
   (take_tokens clock (take_token now b).2).2).
Proof.
  cbn [take_tokens]. destruct (take_token now b) as [ok b']. cbn [fst snd].
  by destruct (take_tokens clock b').
Qed.

Lemma take_tokens_refill_rate clock b :
  refill_rate (take_tokens clock b).2 = refill_rate b.
Proof.
  revert b. induction clock as [|now clock IH]; intros b; [done|].
  rewrite take_tokens_cons. simpl. by rewrite IH, take_token_refill_rate.
Qed.

Lemma take_tokens_invariant clock b :
  invariant b → 0 <= refill_rate b → monotone (last_refill b) clock →
  invariant (take_tokens clock b).2.
Proof.
  revert b. induction clock as [|now clock IH]; intros b Hinv Hrate Hmono; [done|].
  destruct Hmono as [Hnow Hmono]. rewrite take_tokens_cons. simpl. apply IH.
  - by apply take_token_invariant.
  - by rewrite take_token_refill_rate.
  - by rewrite take_token_last_refill.
Qed.

(** A call with no time elapsed: it succeeds exactly when a whole token
    is there, and then takes it. *)
Lemma take_token_now b :
  invariant b →
  (take_token (last_refill b) b).1 = Qle_bool 1 (tokens b)
  ∧ tokens (take_token (last_refill b) b).2 ==
      (if Qle_bool 1 (tokens b) then tokens b - 1 else tokens b).
Proof.
  intros [Hlo Hhi]. unfold take_token.
  assert (Hsame : capped (capacity b)
            (tokens b + (last_refill b - last_refill b) * refill_rate b)
          == tokens b).
  { assert (Hzero : tokens b + (last_refill b - last_refill b) * refill_rate b
                    == tokens b) by ring.
    rewrite capped_id; [done|]. by rewrite Hzero. }
  rewrite (Qleb_comp _ _ (Qeq_refl 1) _ _ Hsame).
  destruct (Qle_bool 1 (tokens b)); simpl; by rewrite Hsame.
Qed.

Lemma take_token_now_invariant b :
  invariant b → invariant (take_token (last_refill b) b).2.
Proof.
  intros Hinv. destruct (take_token_now b Hinv) as [_ Htok].
  destruct Hinv as [Hlo Hhi]. unfold invariant.
  rewrite take_token_capacity, Htok.
  destruct (Qle_bool 1 (tokens b)) eqn:E; [|by split].
  apply Qle_bool_iff in E. split; lra.
Qed.

Lemma take_tokens_now_invariant (k : nat) b :
  invariant b → invariant (take_tokens (replicate k (last_refill b)) b).2.
Proof.
  revert b. induction k as [|k IH]; intros b Hinv; [done|].
  simpl replicate. rewrite take_tokens_cons. simpl.
  pose proof (IH (take_token (last_refill b) b).2) as IH'.
  rewrite take_token_last_refill in IH'.
  apply IH'. by apply take_token_now_invariant.
Qed.

(** With [k] whole tokens and no time elapsing, [k] calls succeed and the
    next one fails. *)
Lemma take_tokens_now (k : nat) b :
  tokens b <= inject_Z (capacity b) →
  tokens b == inject_Z (Z.of_nat k) →
  (take_tokens (replicate (S k) (last_refill b)) b).1 = replicate k true ++ [false].
Proof.
  revert b. induction k as [|k IH]; intros b Hhi Hk.
  - simpl replicate. rewrite take_tokens_cons. simpl.
    assert (Hinv : invariant b) by (split; [by rewrite Hk | done]).
    destruct (take_token_now b Hinv) as [-> _].
    rewrite (Qleb_comp _ _ (Qeq_refl 1) _ _ Hk). done.
  - assert (Hpos : 1 <= tokens b).
    { rewrite Hk. change (inject_Z 1 <= inject_Z (Z.of_nat (S k))).
      rewrite <- Zle_Qle. lia. }
    assert (Hinv : invariant b).
    { split; [|done]. eapply Qle_trans; [|exact Hpos]. done. }
    destruct (take_token_now b Hinv) as [Hok Htok].
    apply Qle_bool_iff in Hpos. rewrite Hpos in Hok, Htok.
    change (replicate (S (S k)) (last_refill b))
      with (last_refill b :: replicate (S k) (last_refill b)).
    rewrite take_tokens_cons. simpl fst. rewrite Hok.
    change (replicate (S k) true ++ [false])
      with (true :: (replicate k true ++ [false])).
    f_equal.
    pose proof (IH (take_token (last_refill b) b).2) as IH'.
    rewrite take_token_last_refill in IH'. apply IH'.
    + apply (take_token_now_invariant b Hinv).
    + rewrite Htok, Hk. rewrite Nat2Z.inj_succ. unfold Z.succ.
      rewrite inject_Z_plus. ring.
Qed.

(** C8. A bucket that starts full with [capacity] tokens answers [true] to
    exactly [capacity] consecutive calls made with no time elapsing
    between them, and [false] to the next one; [0 ≤ tokens ≤ capacity]
    holds after every one of these calls, and after every call of any
    sequence of calls whose clock readings do not decrease, when the refill
    rate is not negative. *)
Theorem C8_capacity_calls_succeed_then_one_fails
    (capacity : Z) (refill_rate now : Q) :
  (0 <= capacity)%Z →
  (take_tokens (replicate (S (Z.to_nat capacity)) now)
     (init capacity refill_rate now)).1
  = replicate (Z.to_nat capacity) true ++ [false]
  ∧ (∀ k : nat,
       invariant (take_tokens (replicate k now) (init capacity refill_rate now)).2)
  ∧ (0 <= refill_rate → ∀ clock : list Q,
       monotone now clock →
       invariant (take_tokens clock (init capacity refill_rate now)).2).
Proof.
  intros Hcap.
  assert (Hinv : invariant (init capacity refill_rate now)).
  { split; simpl; [|apply Qle_refl]. by rewrite <- (Zle_Qle 0). }
  split; [|split].
  - apply (take_tokens_now _ (init capacity refill_rate now)); simpl.
    + apply Qle_refl.
    + by rewrite Z2Nat.id.
  - intros k. by apply (take_tokens_now_invariant k (init capacity refill_rate now)).
  - intros Hrate clock Hmono. by apply take_tokens_invariant.
Qed.

End TokenBucketFacts.

(** C8 at the bucket of [main.py]: four calls pass, the fifth does not. *)
Lemma C8_witness :
  (TokenBucket.take_tokens (replicate 5 0%Q) (bucket_4_2 0)).1
  = [true; true; true; true; false]
  ∧ (∀ k : nat,
       TokenBucket.invariant
         (TokenBucket.take_tokens (replicate k 0%Q) (bucket_4_2 0)).2)
  ∧ ((0 <= 2)%Q → ∀ clock : list Q,
       TokenBucket.monotone 0%Q clock →
       TokenBucket.invariant (TokenBucket.take_tokens clock (bucket_4_2 0)).2).
Proof.
  apply (TokenBucketFacts.C8_capacity_calls_succeed_then_one_fails 4 2 0). lia.
Defined.

(** * Loops that fill a dictionary *)

Section ForInFacts.
Import PyDict PyDictFacts.
Context {A V : Type}.

Lemma for_in_ext {S} (xs : list A) (body1 body2 : S → A → result S) (s : S) :
  (∀ s x, body1 s x = body2 s x) → for_in xs body1 s = for_in xs body2 s.
Proof.
  intros Hext. revert s. induction xs as [|x xs IH]; intros s; simpl; [done|].
  rewrite Hext. destruct (body2 s x); simpl; [apply IH | done].
Qed.

Variable key : A → string.
Variable f : A → result V.

Lemma fill_eq (d : dict V) x :
  fill key f d x =
  match f x with Ok v => Ok (set d (key x) v) | Raise e => Raise e end.
Proof. unfold fill. by destruct (f x). Qed.

(** The loop ends normally only if every [f(x)] does. *)
Lemma for_in_fill_Ok_all xs acc d :
  for_in xs (fill key f) acc = Ok d → Forall (fun x => ∃ v, f x = Ok v) xs.
Proof.
  revert acc. induction xs as [|x xs IH]; intros acc; simpl; [intros _; constructor|].
  rewrite fill_eq. destruct (f x) as [v|e] eqn:E; simpl; [|done].
  intros H. constructor; [by exists v | by eapply IH].
Qed.

(** An exception of the loop is an exception of some [f(x)]. *)
Lemma for_in_fill_Raise xs acc e :
  for_in xs (fill key f) acc = Raise e → ∃ x, x ∈ xs ∧ f x = Raise e.
Proof.
  revert acc. induction xs as [|x xs IH]; intros acc; simpl; [done|].
  rewrite fill_eq. destruct (f x) as [v|e'] eqn:E; simpl.
  - intros (y & Hy & Hfy)%IH. exists y. split; [by right | done].
  - intros [= ->]. exists x. split; [by left | done].
Qed.

(** Over distinct fresh keys the loop appends one item per element, in
    order. *)
Lemma for_in_fill_Ok xs acc d :
  NoDup (keys acc ++ map key xs) →
  for_in xs (fill key f) acc = Ok d →
  ∃ new, d = acc ++ new
         ∧ Forall2 (fun x kv => kv.1 = key x ∧ f x = Ok kv.2) xs new.
Proof.
  revert acc. induction xs as [|x xs IH]; intros acc Hnd; simpl.
  - intros [= <-]. exists []. by rewrite app_nil_r.
  - rewrite fill_eq. destruct (f x) as [v|e] eqn:E; simpl; [|done].
    assert (Hfresh : key x ∉ keys acc).
    { apply NoDup_app in Hnd as (_ & Hdisj & _).
      intros Hin. apply (Hdisj _ Hin). by left. }
    rewrite set_fresh by done. intros Hloop.
    apply IH in Hloop as (new & -> & Hall).
    + exists ((key x, v) :: new). split; [by rewrite <- app_assoc|].
      by constructor.
    + unfold keys. rewrite map_app. simpl. by rewrite <- app_assoc.
Qed.

Lemma for_in_fill_total xs acc :
  Forall (fun x => ∃ v, f x = Ok v) xs → ∃ d, for_in xs (fill key f) acc = Ok d.
Proof.
  intros Hall. revert acc.
  induction Hall as [|x xs [v Hv] _ IH]; intros acc; simpl; [by eexists|].
  rewrite fill_eq, Hv. simpl. apply IH.
Qed.

End ForInFacts.

(** * The statistics aggregator *)

Section AggregatorFacts.
Import PyDict PyDictFacts.
Context {num Json : Type}.
Variable zero : num.
Variable add : num → num → num.

Lemma getitem_Ok {V} (d : dict V) k v : getitem d k = Ok v ↔ get d k = Some v.
Proof. unfold getitem. destruct (get d k); naive_solver. Qed.

Lemma getitem_Raise {V} (d : dict V) k e :
  getitem d k = Raise e ↔ get d k = None ∧ e = KeyError k.
Proof. unfold getitem. destruct (get d k); naive_solver. Qed.

Lemma contains_get {V} (d : dict V) k :
  contains d k = match get d k with Some _ => true | None => false end.
Proof. done. Qed.

(** ** The record of one company *)

Section JoinFacts.
Variable turnover : dict (TurnoverScrip.t num).
Variable transaction : dict (TransactionScrip.t num).
Variable trade : dict (TradeScrip.t num).
Variable gainers losers : dict (Mover.t num).

Abbreviation details_of :=
  (company_details zero turnover transaction trade gainers losers).

(** What the body of the loop over the companies does, case by case: the
    traded quantity is looked up in [trade] when, and only when, the symbol
    is a key of [transaction]. *)
Lemma company_details_eq symbol company :
  details_of symbol company =
  match get transaction symbol, get trade symbol with
  | Some _, None => Raise (KeyError symbol)
  | guard, quantity =>
      Ok {| ScripDetails.symbol := symbol;
            ScripDetails.sectorName := Company.sectorName company;
            ScripDetails.totalTurnover :=
              value_or_zero zero turnover TurnoverScrip.turnover symbol;
            ScripDetails.totalTrades :=
              value_or_zero zero transaction TransactionScrip.totalTrades symbol;
            ScripDetails.totalTradeQuantity :=
              match guard, quantity with
              | Some _, Some o => TradeScrip.shareTraded o
              | _, _ => zero
              end;
            ScripDetails.pointChange := (change_of zero gainers losers symbol).1.1;
            ScripDetails.percentageChange := (change_of zero gainers losers symbol).1.2;
            ScripDetails.ltp := (change_of zero gainers losers symbol).2 |}
  end.
Proof.
  unfold company_details, value_or_zero, change_of, getitem.
  rewrite !contains_get.
  destruct (get turnover symbol), (get transaction symbol),
    (get trade symbol), (get gainers symbol), (get losers symbol); reflexivity.
Qed.

Lemma company_details_Raise symbol company e :
  details_of symbol company = Raise e →
  e = KeyError symbol
  ∧ symbol ∈ keys transaction ∧ symbol ∉ keys trade.
Proof.
  rewrite company_details_eq.
  destruct (get transaction symbol) as [t|] eqn:Ht,
    (get trade symbol) as [q|] eqn:Hq; try done.
  intros [= <-]. split; [done|]. split.
  - apply get_is_Some. by exists t.
  - by apply get_None.
Qed.

Lemma company_details_Ok symbol company r :
  details_of symbol company = Ok r →
  ScripDetails.symbol r = symbol
  ∧ ScripDetails.sectorName r = Company.sectorName company
  ∧ ScripDetails.totalTurnover r
    = value_or_zero zero turnover TurnoverScrip.turnover symbol
  ∧ ScripDetails.totalTrades r
    = value_or_zero zero transaction TransactionScrip.totalTrades symbol
  ∧ ScripDetails.totalTradeQuantity r
    = (if contains transaction symbol
       then value_or_zero zero trade TradeScrip.shareTraded symbol
       else zero)
  ∧ (ScripDetails.pointChange r, ScripDetails.percentageChange r,
     ScripDetails.ltp r) = change_of zero gainers losers symbol.
Proof.
  rewrite company_details_eq, contains_get. unfold value_or_zero.
  destruct (get transaction symbol) as [t|] eqn:Ht,
    (get trade symbol) as [q|] eqn:Hq; try done;
    intros [= <-]; cbn [ScripDetails.symbol ScripDetails.sectorName
      ScripDetails.totalTurnover ScripDetails.totalTrades
      ScripDetails.totalTradeQuantity ScripDetails.pointChange
      ScripDetails.percentageChange ScripDetails.ltp];
    by destruct (change_of zero gainers losers symbol) as [[? ?] ?].
Qed.

(** ** The loop over the companies *)

Lemma build_scrips_details_fill companies :
  build_scrips_details zero turnover transaction trade gainers losers companies
  = for_in (items companies)
      (fill fst (fun x => details_of x.1 x.2)) empty.
Proof.
  unfold build_scrips_details. apply for_in_ext.
  intros s [symbol company]. done.
Qed.

(** One record per company, under the symbol of the company and in the
    order of [companies]. *)
Lemma build_scrips_details_Ok companies scrips_details :
  NoDup (keys companies) →
  build_scrips_details zero turnover transaction trade gainers losers companies
  = Ok scrips_details →
  Forall2 (fun x kv => kv.1 = x.1 ∧ details_of x.1 x.2 = Ok kv.2)
    companies scrips_details.
Proof.
  intros Hnd. rewrite build_scrips_details_fill.
  intros (new & -> & Hall)%for_in_fill_Ok; [done|].
  by rewrite app_nil_l.
Qed.

Lemma build_scrips_details_Raise companies e :
  build_scrips_details zero turnover transaction trade gainers losers companies
  = Raise e →
  ∃ symbol, e = KeyError symbol ∧ symbol ∈ keys companies
            ∧ symbol ∈ keys transaction ∧ symbol ∉ keys trade.
Proof.
  rewrite build_scrips_details_fill.
  intros ([symbol company] & Hin & Hraise)%for_in_fill_Raise.
  apply company_details_Raise in Hraise as (-> & Htx & Htr). simpl in *.
  exists symbol. repeat split; try done.
  apply list_elem_of_fmap. by exists (symbol, company).
Qed.

(** The keys of [scrips_details] are the keys of [companies], and each
    record is the one built from the company under the same key. *)
Lemma build_scrips_details_keys companies scrips_details :
  NoDup (keys companies) →
  build_scrips_details zero turnover transaction trade gainers losers companies
  = Ok scrips_details →
  keys scrips_details = keys companies.
Proof.
  intros Hnd Hok. pose proof (build_scrips_details_Ok _ _ Hnd Hok) as Hall.
  clear Hnd Hok. unfold keys.
  induction Hall as [|x kv xs kvs [Hk _] _ IH]; simpl; [done|].
  by rewrite Hk, IH.
Qed.

Lemma build_scrips_details_get companies scrips_details symbol r :
  NoDup (keys companies) →
  build_scrips_details zero turnover transaction trade gainers losers companies
  = Ok scrips_details →
  get scrips_details symbol = Some r →
  ∃ company, get companies symbol = Some company
             ∧ details_of symbol company = Ok r.
Proof.
  intros Hnd Hok. pose proof (build_scrips_details_Ok _ _ Hnd Hok) as Hall.
  clear Hnd Hok.
  induction Hall as [|[s c] [s' r'] xs kvs [Hk Hd] _ IH]; simpl; [done|].
  simpl in Hk, Hd. subst s'.
  destruct (decide (symbol = s)) as [->|Hne]; [|done].
  intros [= ->]. by exists c.
Qed.

End JoinFacts.

(** ** The loop over the sectors *)

Lemma foldl_sector_totals (sector : string) (rs : list (ScripDetails.t num))
    (a b c : num) :
  foldl
    (fun '(total_trades, total_trade_quantity, total_turnover) scrip_details =>
       if decide (ScripDetails.sectorName scrip_details = sector)
       then (add total_trades (ScripDetails.totalTrades scrip_details),
             add total_trade_quantity (ScripDetails.totalTradeQuantity scrip_details),
             add total_turnover (ScripDetails.totalTurnover scrip_details))
       else (total_trades, total_trade_quantity, total_turnover))
    (a, b, c) rs
  = (foldl add a (map ScripDetails.totalTrades
                    (filter (fun r => ScripDetails.sectorName r = sector) rs)),
     foldl add b (map ScripDetails.totalTradeQuantity
                    (filter (fun r => ScripDetails.sectorName r = sector) rs)),
     foldl add c (map ScripDetails.totalTurnover
                    (filter (fun r => ScripDetails.sectorName r = sector) rs))).
Proof.
  revert a b c. induction rs as [|r rs IH]; intros a b c; simpl; [done|].
  rewrite filter_cons.
  destruct (decide (ScripDetails.sectorName r = sector)); simpl; apply IH.
Qed.

(** The running totals are the sums over the members of the sector. *)
Lemma sector_totals_eq scrips_details sector :
  sector_totals zero add scrips_details sector
  = (total zero add (map ScripDetails.totalTrades (members scrips_details sector)),
     total zero add (map ScripDetails.totalTradeQuantity (members scrips_details sector)),
     total zero add (map ScripDetails.totalTurnover (members scrips_details sector))).
Proof. apply foldl_sector_totals. Qed.

Lemma sector_record_eq sector_sub_indices scrips_details sector :
  sector_record zero add sector_sub_indices scrips_details sector =
  match get sector_mapper sector with
  | None => Raise (KeyError sector)
  | Some label =>
      match get sector_sub_indices label with
      | None => Raise (KeyError label)
      | Some index =>
          Ok {| SectorDetails.totalTrades :=
                  total zero add
                    (map ScripDetails.totalTrades (members scrips_details sector));
                SectorDetails.totalTradeQuantity :=
                  total zero add
                    (map ScripDetails.totalTradeQuantity (members scrips_details sector));
                SectorDetails.totalTurnover :=
                  total zero add
                    (map ScripDetails.totalTurnover (members scrips_details sector));
                SectorDetails.index := index;
                SectorDetails.sectorName := sector |}
      end
  end.
Proof.
  unfold sector_record. rewrite sector_totals_eq. unfold getitem.
  destruct (get sector_mapper sector) as [label|]; [|done]. simpl.
  by destruct (get sector_sub_indices label).
Qed.

Lemma sector_record_Raise sector_sub_indices scrips_details sector e :
  sector_record zero add sector_sub_indices scrips_details sector = Raise e →
  ∃ key, e = KeyError key.
Proof.
  rewrite sector_record_eq.
  destruct (get sector_mapper sector) as [label|]; [|by intros [= <-]; eauto].
  destruct (get sector_sub_indices label); [done | by intros [= <-]; eauto].
Qed.

Lemma build_sector_details_fill sector_sub_indices scrips_details sectors :
  build_sector_details zero add sector_sub_indices scrips_details sectors
  = for_in sectors
      (fill id (sector_record zero add sector_sub_indices scrips_details)) empty.
Proof.
  unfold build_sector_details. apply for_in_ext. intros d sector.
  unfold fill, sector_record.
  destruct (sector_totals zero add scrips_details sector) as [[? ?] ?].
  destruct (getitem sector_mapper sector) as [label|]; simpl; [|done].
  by destruct (getitem sector_sub_indices label).
Qed.

Lemma build_sector_details_Ok sector_sub_indices scrips_details sectors sector_details :
  NoDup sectors →
  build_sector_details zero add sector_sub_indices scrips_details sectors
  = Ok sector_details →
  Forall2
    (fun sector kv =>
       kv.1 = sector
       ∧ sector_record zero add sector_sub_indices scrips_details sector = Ok kv.2)
    sectors sector_details.
Proof.
  intros Hnd. rewrite build_sector_details_fill.
  intros (new & -> & Hall)%for_in_fill_Ok; [done|].
  simpl. by rewrite map_id.
Qed.

Lemma build_sector_details_Raise sector_sub_indices scrips_details sectors e :
  build_sector_details zero add sector_sub_indices scrips_details sectors
  = Raise e →
  ∃ key, e = KeyError key.
Proof.
  rewrite build_sector_details_fill.
  intros (sector & _ & Hraise)%for_in_fill_Raise.
  by eapply sector_record_Raise.
Qed.

Lemma build_sector_details_keys sector_sub_indices scrips_details sectors sector_details :
  NoDup sectors →
  build_sector_details zero add sector_sub_indices scrips_details sectors
  = Ok sector_details →
  keys sector_details = sectors.
Proof.
  intros Hnd Hok. pose proof (build_sector_details_Ok _ _ _ _ Hnd Hok) as Hall.
  clear Hnd Hok. unfold keys.
  induction Hall as [|x kv xs kvs [Hk _] _ IH]; simpl; [done|].
  by rewrite Hk, IH.
Qed.

Lemma build_sector_details_get sector_sub_indices scrips_details sectors
    sector_details sector :
  NoDup sectors →
  build_sector_details zero add sector_sub_indices scrips_details sectors
  = Ok sector_details →
  sector ∈ sectors →
  ∃ r, get sector_details sector = Some r
       ∧ sector_record zero add sector_sub_indices scrips_details sector = Ok r.
Proof.
  intros Hnd Hok. pose proof (build_sector_details_Ok _ _ _ _ Hnd Hok) as Hall.
  clear Hnd Hok.
  induction Hall as [|s [s' r'] xs kvs [Hk Hd] _ IH]; simpl.
  - by intros ?%elem_of_nil.
  - simpl in Hk, Hd. subst s'.
    destruct (decide (sector = s)) as [->|Hne]; [by exists r'|].
    intros [?|Hin]%elem_of_cons; [done | by apply IH].
Qed.

(** The order in which the sectors are traversed changes neither whether
    the loop ends normally nor what a lookup in its result finds. *)
Lemma build_sector_details_order sector_sub_indices scrips_details
    sectors1 sectors2 sector_details1 :
  NoDup sectors1 → sectors1 ≡ₚ sectors2 →
  build_sector_details zero add sector_sub_indices scrips_details sectors1
  = Ok sector_details1 →
  ∃ sector_details2,
    build_sector_details zero add sector_sub_indices scrips_details sectors2
    = Ok sector_details2
    ∧ ∀ sector, get sector_details2 sector = get sector_details1 sector.
Proof.
  intros Hnd1 Hperm Hok1.
  assert (Hnd2 : NoDup sectors2) by by rewrite <- Hperm.
  assert (Hall : Forall
            (fun s => ∃ v, sector_record zero add sector_sub_indices
                             scrips_details s = Ok v) sectors2).
  { rewrite <- Hperm. eapply for_in_fill_Ok_all.
    by rewrite <- build_sector_details_fill. }
  destruct (for_in_fill_total id _ _ empty Hall) as [d2 Hok2].
  rewrite <- build_sector_details_fill in Hok2.
  exists d2. split; [done|]. intros sector.
  destruct (decide (sector ∈ sectors1)) as [Hin|Hout].
  - destruct (build_sector_details_get _ _ _ _ sector Hnd1 Hok1 Hin)
      as (r1 & -> & Hr1).
    rewrite Hperm in Hin.
    destruct (build_sector_details_get _ _ _ _ sector Hnd2 Hok2 Hin)
      as (r2 & -> & Hr2).
    congruence.
  - assert (H1 : get sector_details1 sector = None).
    { apply get_None. by rewrite (build_sector_details_keys _ _ _ _ Hnd1 Hok1). }
    assert (H2 : get d2 sector = None).
    { apply get_None. rewrite (build_sector_details_keys _ _ _ _ Hnd2 Hok2).
      by rewrite <- Hperm. }
    by rewrite H1, H2.
Qed.

Lemma build_sector_details_order_Raise sector_sub_indices scrips_details
    sectors1 sectors2 e :
  NoDup sectors1 → sectors1 ≡ₚ sectors2 →
  build_sector_details zero add sector_sub_indices scrips_details sectors1
  = Raise e →
  ∃ key,
    build_sector_details zero add sector_sub_indices scrips_details sectors2
    = Raise (KeyError key).
Proof.
  intros Hnd1 Hperm Hraise.
  destruct (build_sector_details zero add sector_sub_indices scrips_details
              sectors2) as [d2|e2] eqn:E2.
  - assert (Hnd2 : NoDup sectors2) by by rewrite <- Hperm.
    symmetry in Hperm.
    destruct (build_sector_details_order _ _ _ _ _ Hnd2 Hperm E2) as (d1 & Hd1 & _).
    congruence.
  - destruct (build_sector_details_Raise _ _ _ _ E2) as [key ->]. by exists key.
Qed.

End AggregatorFacts.

(** ** The company list and its index *)

Section CompanyListFacts.
Import PyDict PyDictFacts.

Lemma filter_none {A} (P : A → Prop) `{!∀ x, Decision (P x)} (xs : list A) :
  (∀ x, x ∈ xs → ¬ P x) → filter P xs = [].
Proof.
  induction xs as [|x xs IH]; intros Hnone; [done|].
  rewrite filter_cons, decide_False by (apply Hnone; by left).
  apply IH. intros y Hy. apply Hnone. by right.
Qed.

Lemma get_index_by {A} (key : A → string) (xs : list A) k :
  get (index_by key xs) k = last (filter (fun o => key o = k) xs).
Proof.
  unfold index_by. rewrite get_comprehension.
  by destruct (last (filter _ xs)).
Qed.

Lemma get_index_by_key {A} (key : A → string) (xs : list A) k o :
  get (index_by key xs) k = Some o → key o = k ∧ o ∈ xs.
Proof.
  rewrite get_index_by. intros Hlast%last_Some_elem_of.
  by apply list_elem_of_filter in Hlast.
Qed.

Lemma elem_of_keys_index_by {A} (key : A → string) (xs : list A) k :
  k ∈ keys (index_by key xs) ↔ k ∈ map key xs.
Proof. apply elem_of_keys_comprehension. Qed.

Lemma get_index_by_None {A} (key : A → string) (xs : list A) k :
  k ∉ map key xs → get (index_by key xs) k = None.
Proof. intros H. apply get_None. by rewrite elem_of_keys_index_by. Qed.

Lemma NoDup_keys_index_by {A} (key : A → string) (xs : list A) :
  NoDup (keys (index_by key xs)).
Proof. apply NoDup_keys_comprehension. Qed.

Lemma listed_get companyList company :
  listed companyList company
  ↔ get (index_by Company.symbol companyList) (Company.symbol company)
    = Some company.
Proof. unfold listed. by rewrite get_index_by. Qed.

Lemma get_listed companyList symbol company :
  get (index_by Company.symbol companyList) symbol = Some company →
  Company.symbol company = symbol ∧ listed companyList company.
Proof.
  intros Hget. destruct (get_index_by_key _ _ _ _ Hget) as [Hsym _].
  split; [done|]. apply listed_get. by rewrite Hsym.
Qed.

Lemma listed_elem_of companyList company :
  listed companyList company → company ∈ companyList.
Proof. intros H%listed_get. by apply get_index_by_key in H as [_ ?]. Qed.

(** When the symbols of the company list are distinct, every member of the
    list is listed. *)
Lemma listed_NoDup companyList company :
  NoDup (map Company.symbol companyList) →
  listed companyList company ↔ company ∈ companyList.
Proof.
  intros Hnd. split; [apply listed_elem_of|]. unfold listed.
  induction companyList as [|c cl IH]; [by intros ?%elem_of_nil|].
  simpl in Hnd. apply NoDup_cons in Hnd as [Hfresh Hnd].
  rewrite filter_cons. intros [->|Hin]%elem_of_cons.
  - rewrite decide_True by done.
    assert (Hnone : filter (fun o => Company.symbol o = Company.symbol c) cl = []).
    { apply filter_none. intros o Ho Heq.
      apply Hfresh. rewrite <- Heq. apply list_elem_of_fmap. by exists o. }
    by rewrite Hnone.
  - rewrite decide_False.
    + by apply IH.
    + intros Heq. apply Hfresh. rewrite Heq.
      apply list_elem_of_fmap. by exists company.
Qed.

(** The members of [companies.values()] are the listed companies. *)
Lemma elem_of_values_companies companyList company :
  company ∈ values (index_by Company.symbol companyList)
  ↔ listed companyList company.
Proof.
  rewrite elem_of_values by apply NoDup_keys_index_by. split.
  - intros [k Hk]. by apply get_listed in Hk as [_ ?].
  - intros H%listed_get. by eexists.
Qed.

End CompanyListFacts.

(** ** The route as a whole *)

Section StatisticsFacts.
Import PyDict PyDictFacts.
Context {num Json : Type}.
Variable zero : num.
Variable add : num → num → num.
Variable nepse : Nepse num Json.
Variable feeds : Feeds num.

(** The local variables of the route, once the feeds are there. *)
Abbreviation companies := (index_by Company.symbol (companyList feeds)).
Abbreviation turnover := (index_by TurnoverScrip.symbol (turnoverScrips feeds)).
Abbreviation transaction :=
  (index_by TransactionScrip.symbol (transactionScrips feeds)).
Abbreviation trade := (index_by TradeScrip.symbol (tradeScrips feeds)).
Abbreviation gainers := (index_by Mover.symbol (topGainers feeds)).
Abbreviation losers := (index_by Mover.symbol (topLosers feeds)).
Abbreviation sector_sub_indices := (index_by SubIndex.index (subIndices feeds)).
Abbreviation sectors :=
  (list_to_set (map Company.sectorName (values companies)) : gset string).

Lemma for_in_Ok {A S} (xs : list A) (g : S → A → S) (s : S) :
  for_in xs (fun s x => Ok (g s x)) s = Ok (foldl g s xs).
Proof. revert s. induction xs as [|x xs IH]; intros s; simpl; [done | apply IH]. Qed.

Lemma _get_nepse_sub_indices_fetched :
  getNepseSubIndices nepse = Ok (subIndices feeds) →
  _get_nepse_sub_indices nepse = Ok sector_sub_indices.
Proof.
  intros H. unfold _get_nepse_sub_indices. rewrite H. simpl.
  rewrite for_in_Ok. reflexivity.
Qed.

(** With the feeds fetched, the route is its two loops. *)
Lemma statistics_fetched :
  fetched nepse feeds →
  get_trade_turnover_transaction_subindices zero add nepse =
  (scrips_details ←
     build_scrips_details zero turnover transaction trade gainers losers companies;
   sector_details ←
     build_sector_details zero add sector_sub_indices scrips_details
       (elements sectors);
   Ok {| scripsDetails := scrips_details; sectorsDetails := sector_details |}).
Proof.
  intros (H1 & H2 & H3 & H4 & H5 & H6 & H7 & H8).
  unfold get_trade_turnover_transaction_subindices.
  rewrite H1, H2, H3, H4, H5, H6, H7. simpl.
  by rewrite (_get_nepse_sub_indices_fetched H8).
Qed.

Lemma statistics_Ok out :
  fetched nepse feeds →
  get_trade_turnover_transaction_subindices zero add nepse = Ok out →
  build_scrips_details zero turnover transaction trade gainers losers companies
  = Ok (scripsDetails out)
  ∧ build_sector_details zero add sector_sub_indices (scripsDetails out)
      (elements sectors)
    = Ok (sectorsDetails out).
Proof.
  intros Hf. rewrite (statistics_fetched Hf).
  destruct (build_scrips_details _ _ _ _ _ _ _) as [sd|] eqn:E1; simpl; [|done].
  destruct (build_sector_details zero add sector_sub_indices sd (elements sectors))
    as [secd|] eqn:E2; simpl; [|done].
  by intros [= <-].
Qed.

(** With the feeds fetched, the only exception of the route is [KeyError]. *)
Lemma statistics_Raise e :
  fetched nepse feeds →
  get_trade_turnover_transaction_subindices zero add nepse = Raise e →
  ∃ key, e = KeyError key.
Proof.
  intros Hf. rewrite (statistics_fetched Hf).
  destruct (build_scrips_details _ _ _ _ _ _ _) as [sd|e1] eqn:E1; simpl.
  - destruct (build_sector_details _ _ _ _ _) as [secd|e2] eqn:E2; simpl; [done|].
    intros [= <-]. by eapply build_sector_details_Raise.
  - intros [= <-].
    apply build_scrips_details_Raise in E1 as (symbol & -> & _). by eexists.
Qed.

(** The record of a symbol is built from the company listed under it. *)
Lemma statistics_scrip out symbol r :
  fetched nepse feeds →
  get_trade_turnover_transaction_subindices zero add nepse = Ok out →
  get (scripsDetails out) symbol = Some r →
  ∃ company,
    listed (companyList feeds) company ∧ Company.symbol company = symbol
    ∧ company_details zero turnover transaction trade gainers losers
        symbol company = Ok r.
Proof.
  intros Hf Hok Hget. destruct (statistics_Ok _ Hf Hok) as [Hsd _].
  destruct (build_scrips_details_get _ _ _ _ _ _ _ _ _ _
              (NoDup_keys_index_by _ _) Hsd Hget) as (company & Hc & Hd).
  exists company. by apply get_listed in Hc as [? ?].
Qed.

Lemma statistics_scrips_keys out :
  fetched nepse feeds →
  get_trade_turnover_transaction_subindices zero add nepse = Ok out →
  keys (scripsDetails out) = keys companies.
Proof.
  intros Hf Hok. destruct (statistics_Ok _ Hf Hok) as [Hsd _].
  by eapply build_scrips_details_keys; [apply NoDup_keys_index_by|].
Qed.

Lemma statistics_sectors_keys out :
  fetched nepse feeds →
  get_trade_turnover_transaction_subindices zero add nepse = Ok out →
  keys (sectorsDetails out) = elements sectors.
Proof.
  intros Hf Hok. destruct (statistics_Ok _ Hf Hok) as [_ Hsec].
  by eapply build_sector_details_keys; [apply NoDup_elements|].
Qed.

Lemma elem_of_sectors sector :
  sector ∈ elements sectors
  ↔ ∃ company, listed (companyList feeds) company
               ∧ Company.sectorName company = sector.
Proof.
  rewrite elem_of_elements, elem_of_list_to_set, list_elem_of_fmap.
  split; intros (c & Hc1 & Hc2).
  - exists c. by rewrite <- elem_of_values_companies.
  - exists c. by rewrite elem_of_values_companies.
Qed.

End StatisticsFacts.

(** ** The claims about the route *)

Section StatisticsClaims.
Import PyDict PyDictFacts.
Context {num Json : Type}.
Variable zero : num.
Variable add : num → num → num.
Variable nepse : Nepse num Json.

Lemma fetched_client_of (feeds : Feeds num) : fetched (client_of feeds) feeds.
Proof. by repeat split. Qed.

Lemma fetched_companyList (feeds : Feeds num) company_list :
  fetched nepse feeds → getCompanyList nepse = Ok company_list →
  companyList feeds = company_list.
Proof. intros (H & _) H'. congruence. Qed.

(** The route returns only if every fetch has returned. *)
Lemma statistics_Ok_fetched out :
  get_trade_turnover_transaction_subindices zero add nepse = Ok out →
  ∃ feeds, fetched nepse feeds.
Proof.
  unfold get_trade_turnover_transaction_subindices, _get_nepse_sub_indices.
  destruct (getCompanyList nepse) as [f1|] eqn:E1; simpl; [|done].
  destruct (getTopTenTurnoverScrips nepse) as [f2|] eqn:E2; simpl; [|done].
  destruct (getTopTenTransactionScrips nepse) as [f3|] eqn:E3; simpl; [|done].
  destruct (getTopTenTradeScrips nepse) as [f4|] eqn:E4; simpl; [|done].
  destruct (getTopGainers nepse) as [f5|] eqn:E5; simpl; [|done].
  destruct (getTopLosers nepse) as [f6|] eqn:E6; simpl; [|done].
  destruct (getPriceVolume nepse) as [f7|] eqn:E7; simpl; [|done].
  destruct (getNepseSubIndices nepse) as [f8|] eqn:E8; simpl; [|done].
  intros _.
  by exists {| companyList := f1; turnoverScrips := f2; transactionScrips := f3;
               tradeScrips := f4; topGainers := f5; topLosers := f6;
               priceVolume := f7; subIndices := f8 |}.
Qed.

(** A listed company of a sector without an entry in [sector_mapper] keeps
    the route from returning. *)
Lemma unknown_sector_not_Ok (feeds : Feeds num) company out :
  fetched nepse feeds →
  listed (companyList feeds) company →
  Company.sectorName company ∉ keys sector_mapper →
  get_trade_turnover_transaction_subindices zero add nepse ≠ Ok out.
Proof.
  intros Hf Hlisted Hunknown Hok.
  destruct (statistics_Ok zero add nepse feeds out Hf Hok) as [_ Hsec].
  destruct (build_sector_details_get zero add _ _ _ _ (Company.sectorName company)
              (NoDup_elements _) Hsec) as (r & _ & Hrec).
  { apply elem_of_sectors. by exists company. }
  rewrite sector_record_eq in Hrec.
  apply get_None in Hunknown. by rewrite Hunknown in Hrec.
Qed.

(** A company whose symbol is a key of [transaction] but not of [trade]
    makes the route raise the [KeyError] of such a symbol. *)
Lemma transaction_without_trade_KeyError (feeds : Feeds num) symbol :
  fetched nepse feeds →
  symbol ∈ map Company.symbol (companyList feeds) →
  symbol ∈ map TransactionScrip.symbol (transactionScrips feeds) →
  symbol ∉ map TradeScrip.symbol (tradeScrips feeds) →
  ∃ key,
    get_trade_turnover_transaction_subindices zero add nepse = Raise (KeyError key)
    ∧ key ∈ map Company.symbol (companyList feeds)
    ∧ key ∈ map TransactionScrip.symbol (transactionScrips feeds)
    ∧ key ∉ map TradeScrip.symbol (tradeScrips feeds).
Proof.
  intros Hf Hco Htx Htr. rewrite (statistics_fetched zero add nepse feeds Hf).
  destruct (build_scrips_details _ _ _ _ _ _ _) as [sd|e] eqn:E; simpl.
  - exfalso. rewrite build_scrips_details_fill in E.
    apply for_in_fill_Ok_all in E.
    apply elem_of_keys_index_by, get_is_Some in Hco as [company Hco].
    apply elem_of_items in Hco; [|apply NoDup_keys_index_by].
    rewrite Forall_forall in E. destruct (E _ Hco) as [r Hr]. simpl in Hr.
    rewrite company_details_eq in Hr.
    apply elem_of_keys_index_by, get_is_Some in Htx as [t Ht].
    rewrite <- elem_of_keys_index_by, <- get_None in Htr.
    by rewrite Ht, Htr in Hr.
  - apply build_scrips_details_Raise in E as (key & -> & H1 & H2 & H3).
    exists key. by rewrite <- !elem_of_keys_index_by.
Qed.

Section Fetched.
Variable feeds : Feeds num.
Hypothesis Hfetched : fetched nepse feeds.
Variable out : Statistics num.
Hypothesis HOk : get_trade_turnover_transaction_subindices zero add nepse = Ok out.

(** The parts of C1 that hold: turnover and number of trades come from
    their own collections; the traded quantity comes from [trade] only for
    the keys of [transaction]. *)
Lemma statistics_leader_values symbol r :
  get (scripsDetails out) symbol = Some r →
  ScripDetails.totalTurnover r
  = value_or_zero zero (index_by TurnoverScrip.symbol (turnoverScrips feeds))
      TurnoverScrip.turnover symbol
  ∧ ScripDetails.totalTrades r
    = value_or_zero zero (index_by TransactionScrip.symbol (transactionScrips feeds))
        TransactionScrip.totalTrades symbol
  ∧ ScripDetails.totalTradeQuantity r
    = (if contains (index_by TransactionScrip.symbol (transactionScrips feeds)) symbol
       then value_or_zero zero (index_by TradeScrip.symbol (tradeScrips feeds))
              TradeScrip.shareTraded symbol
       else zero).
Proof.
  intros Hget.
  destruct (statistics_scrip zero add nepse feeds out symbol r Hfetched HOk Hget)
    as (company & _ & _ & Hd).
  apply company_details_Ok in Hd. naive_solver.
Qed.

(** A symbol of the company list that no collection of leaders, gainers or
    losers mentions gets zeros throughout. *)
Lemma statistics_absent_symbol_zero symbol r :
  get (scripsDetails out) symbol = Some r →
  symbol ∉ map TurnoverScrip.symbol (turnoverScrips feeds) →
  symbol ∉ map TransactionScrip.symbol (transactionScrips feeds) →
  symbol ∉ map TradeScrip.symbol (tradeScrips feeds) →
  symbol ∉ map Mover.symbol (topGainers feeds) →
  symbol ∉ map Mover.symbol (topLosers feeds) →
  ScripDetails.totalTurnover r = zero
  ∧ ScripDetails.totalTrades r = zero
  ∧ ScripDetails.totalTradeQuantity r = zero
  ∧ ScripDetails.pointChange r = zero
  ∧ ScripDetails.percentageChange r = zero
  ∧ ScripDetails.ltp r = zero.
Proof.
  intros Hget Htu Htx Htr Hg Hl.
  apply get_index_by_None in Htu, Htx, Htr, Hg, Hl.
  destruct (statistics_scrip zero add nepse feeds out symbol r Hfetched HOk Hget)
    as (company & _ & _ & Hd).
  apply company_details_Ok in Hd as (_ & _ & H1 & H2 & H3 & H4).
  unfold value_or_zero, change_of in *. rewrite contains_get in H3.
  rewrite Htu in H1. rewrite Htx in H2, H3. rewrite Hg, Hl in H4.
  by injection H4 as -> -> ->.
Qed.

(** C10. When the route returns, the keys of [scripsDetails] are exactly
    the symbols of the company list, each once; the record under a symbol
    carries the sector name of the company that the list holds for that
    symbol (its last entry with that symbol); and the keys of
    [sectorsDetails] are exactly the sector names of these companies, each
    once.  When the symbols of the company list are distinct, these are
    the sector names of all entries of the list. *)
Theorem C10_keys_of_scrips_and_sectors :
  NoDup (keys (scripsDetails out))
  ∧ (∀ symbol,
       symbol ∈ keys (scripsDetails out)
       ↔ symbol ∈ map Company.symbol (companyList feeds))
  ∧ (∀ symbol r,
       get (scripsDetails out) symbol = Some r →
       ∃ company, listed (companyList feeds) company
                  ∧ Company.symbol company = symbol
                  ∧ ScripDetails.sectorName r = Company.sectorName company)
  ∧ NoDup (keys (sectorsDetails out))
  ∧ (∀ sector,
       sector ∈ keys (sectorsDetails out)
       ↔ ∃ company, listed (companyList feeds) company
                    ∧ Company.sectorName company = sector)
  ∧ (NoDup (map Company.symbol (companyList feeds)) →
     ∀ sector,
       sector ∈ keys (sectorsDetails out)
       ↔ sector ∈ map Company.sectorName (companyList feeds)).
Proof.
  pose proof (statistics_scrips_keys zero add nepse feeds out Hfetched HOk) as Hk.
  pose proof (statistics_sectors_keys zero add nepse feeds out Hfetched HOk) as Hs.
  split; [rewrite Hk; apply NoDup_keys_index_by|].
  split; [intros symbol; rewrite Hk; apply elem_of_keys_index_by|].
  split.
  { intros symbol r Hget.
    destruct (statistics_scrip zero add nepse feeds out symbol r Hfetched HOk Hget)
      as (company & Hl & Hsym & Hd).
    exists company. apply company_details_Ok in Hd. naive_solver. }
  split; [rewrite Hs; apply NoDup_elements|].
  split; [intros sector; rewrite Hs; apply elem_of_sectors|].
  intros Hnd sector. rewrite Hs, elem_of_sectors, list_elem_of_fmap.
  split; intros (c & H1 & H2).
  - exists c. split; [done|]. by apply listed_elem_of.
  - exists c. split; [|done]. by apply listed_NoDup.
Qed.

(** C5. When the route returns, every sector of a company of the company
    list has a record in [sectorsDetails], and the trades, the traded
    quantity and the turnover of that record are the sums of these fields
    over the records of [scripsDetails] whose sector name is that sector,
    and over no others.  The companies of the list are its [listed]
    entries: all of them when symbols are distinct ([listed_NoDup]). *)
Theorem C5_sector_totals_are_sums_over_members company :
  listed (companyList feeds) company →
  ∃ r,
    get (sectorsDetails out) (Company.sectorName company) = Some r
    ∧ SectorDetails.totalTrades r
      = total zero add
          (map ScripDetails.totalTrades
             (members (scripsDetails out) (Company.sectorName company)))
    ∧ SectorDetails.totalTradeQuantity r
      = total zero add
          (map ScripDetails.totalTradeQuantity
             (members (scripsDetails out) (Company.sectorName company)))
    ∧ SectorDetails.totalTurnover r
      = total zero add
          (map ScripDetails.totalTurnover
             (members (scripsDetails out) (Company.sectorName company))).
Proof.
  intros Hlisted.
  destruct (statistics_Ok zero add nepse feeds out Hfetched HOk) as [_ Hsec].
  destruct (build_sector_details_get zero add _ _ _ _ (Company.sectorName company)
              (NoDup_elements _) Hsec) as (r & Hget & Hrec).
  { apply elem_of_sectors. by exists company. }
  exists r. split; [done|]. rewrite sector_record_eq in Hrec.
  destruct (get sector_mapper _) as [label|]; [|done].
  destruct (get _ label) as [index|]; [|done].
  by injection Hrec as <-.
Qed.

(** C6. When the route returns, the record of every symbol of the company
    list takes its point change, percentage change and last traded price
    from the entry of the symbol in the gainers when there is one, also
    when the losers have one too; else from its entry in the losers when
    there is one; else all three are [0]. *)
Theorem C6_gainers_then_losers_then_zero symbol :
  symbol ∈ map Company.symbol (companyList feeds) →
  ∃ r,
    get (scripsDetails out) symbol = Some r
    ∧ (∀ g, get (index_by Mover.symbol (topGainers feeds)) symbol = Some g →
         ScripDetails.pointChange r = Mover.pointChange g
         ∧ ScripDetails.percentageChange r = Mover.percentageChange g
         ∧ ScripDetails.ltp r = Mover.ltp g)
    ∧ (get (index_by Mover.symbol (topGainers feeds)) symbol = None →
       ∀ l, get (index_by Mover.symbol (topLosers feeds)) symbol = Some l →
         ScripDetails.pointChange r = Mover.pointChange l
         ∧ ScripDetails.percentageChange r = Mover.percentageChange l
         ∧ ScripDetails.ltp r = Mover.ltp l)
    ∧ (get (index_by Mover.symbol (topGainers feeds)) symbol = None →
       get (index_by Mover.symbol (topLosers feeds)) symbol = None →
       ScripDetails.pointChange r = zero
       ∧ ScripDetails.percentageChange r = zero
       ∧ ScripDetails.ltp r = zero).
Proof.
  intros Hin.
  assert (Hkey : symbol ∈ keys (scripsDetails out)).
  { rewrite (statistics_scrips_keys zero add nepse feeds out Hfetched HOk).
    by apply elem_of_keys_index_by. }
  apply get_is_Some in Hkey as [r Hget]. exists r. split; [done|].
  destruct (statistics_scrip zero add nepse feeds out symbol r Hfetched HOk Hget)
    as (company & _ & _ & Hd).
  apply company_details_Ok in Hd as (_ & _ & _ & _ & _ & Hchange).
  unfold change_of in Hchange.
  destruct (get (index_by Mover.symbol (topGainers feeds)) symbol) as [g|];
    [|destruct (get (index_by Mover.symbol (topLosers feeds)) symbol) as [l|]];
    injection Hchange as -> -> ->; naive_solver.
Qed.

End Fetched.

(** C4. A company of the company list whose sector name is not a key of
    [sector_mapper] makes the whole request fail: the route raises, and
    when all the fetches have returned, what it raises is a [KeyError].
    The companies of the list are its [listed] entries: all of them when
    symbols are distinct ([listed_NoDup]). *)
Theorem C4_unknown_sector_fails_the_request
    (company_list : list Company.t) (company : Company.t) :
  getCompanyList nepse = Ok company_list →
  listed company_list company →
  Company.sectorName company ∉ keys sector_mapper →
  (∃ e, get_trade_turnover_transaction_subindices zero add nepse = Raise e)
  ∧ (∀ feeds, fetched nepse feeds →
       ∃ key, get_trade_turnover_transaction_subindices zero add nepse
              = Raise (KeyError key)).
Proof.
  intros Hcl Hlisted Hunknown.
  assert (Hraise : ∃ e, get_trade_turnover_transaction_subindices zero add nepse
                        = Raise e).
  { destruct (get_trade_turnover_transaction_subindices zero add nepse)
      as [out|e] eqn:E; [|by exists e].
    destruct (statistics_Ok_fetched out E) as [feeds Hf].
    destruct (unknown_sector_not_Ok feeds company out Hf); [|done..].
    by rewrite (fetched_companyList feeds company_list Hf Hcl). }
  split; [done|]. intros feeds Hf. destruct Hraise as [e He].
  destruct (statistics_Raise zero add nepse feeds e Hf He) as [key ->].
  by exists key.
Qed.

End StatisticsClaims.

(** The table of the sectors has thirteen entries, with distinct keys. *)
Lemma sector_mapper_13 :
  length sector_mapper = 13%nat ∧ NoDup (PyDict.keys sector_mapper).
Proof. split; [done|]. apply (bool_decide_unpack _). by vm_compute. Qed.

Lemma sample_statistics_Ok :
  get_trade_turnover_transaction_subindices 0 Z.add (client_of sample_feeds)
  = Ok sample_statistics.
Proof. by vm_compute. Qed.

(** * The claims at the sample feeds *)

(** C1 at the failing input.  "BBB" is in the company list and among the
    trade-volume leaders with 500 shares traded, but not among the
    transaction leaders: the route gives it a traded quantity of 0. *)
Theorem C1_traded_quantity_is_guarded_by_transaction :
  get_trade_turnover_transaction_subindices 0 Z.add (client_of sample_feeds)
  = Ok sample_statistics
  ∧ value_or_zero 0 (index_by TradeScrip.symbol (tradeScrips sample_feeds))
      TradeScrip.shareTraded "BBB" = 500
  ∧ (ScripDetails.totalTradeQuantity
       <$> PyDict.get (scripsDetails sample_statistics) "BBB") = Some 0.
Proof. by vm_compute. Qed.

(** C9. There are feeds in which a symbol of the company list is among the
    transaction leaders but not among the trade-volume leaders, and on
    which the route raises the [KeyError] of that symbol. *)
Theorem C9_transaction_leader_without_trade_raises_KeyError :
  ∃ (feeds : Feeds Z) (symbol : string),
    symbol ∈ map Company.symbol (companyList feeds)
    ∧ symbol ∈ map TransactionScrip.symbol (transactionScrips feeds)
    ∧ (symbol ∉ map TradeScrip.symbol (tradeScrips feeds))
    ∧ get_trade_turnover_transaction_subindices 0 Z.add (client_of feeds)
      = Raise (KeyError symbol).
Proof.
  exists sample_feeds_transaction_only, "BBB"%string.
  repeat split; try (apply (bool_decide_unpack _); by vm_compute).
Qed.

(** C4 at a company list with a company of the sector "Telecom". *)
Lemma C4_witness :
  (∃ e, get_trade_turnover_transaction_subindices 0 Z.add
          (client_of sample_feeds_unknown_sector) = Raise e)
  ∧ (∀ feeds, fetched (client_of sample_feeds_unknown_sector) feeds →
       ∃ key, get_trade_turnover_transaction_subindices 0 Z.add
                (client_of sample_feeds_unknown_sector) = Raise (KeyError key)).
Proof.
  apply (C4_unknown_sector_fails_the_request 0 Z.add
           (client_of sample_feeds_unknown_sector)
           (companyList sample_feeds_unknown_sector)
           (Company.mk "ZZZ" "Telecom")).
  - reflexivity.
  - vm_compute. reflexivity.
  - apply (bool_decide_unpack _). vm_compute. exact I.
Defined.

(** C5 at the sample feeds: the two scrips of "Finance" have turnovers 100
    and 250, and the turnover of the sector is 350. *)
Lemma C5_witness :
  ∃ r,
    PyDict.get (sectorsDetails sample_statistics) "Finance" = Some r
    ∧ SectorDetails.totalTurnover r = 350.
Proof.
  destruct (C5_sector_totals_are_sums_over_members 0 Z.add
              (client_of sample_feeds) sample_feeds
              ltac:(repeat split; reflexivity)
              sample_statistics ltac:(vm_compute; reflexivity)
              (Company.mk "AAA" "Finance") ltac:(vm_compute; reflexivity))
    as (r & Hget & _ & _ & Hturnover).
  exists r. split; [exact Hget|]. rewrite Hturnover. vm_compute. reflexivity.
Defined.

(** C6 at the sample feeds: "AAA" is a gainer and a loser, and its record
    carries the values of the gainers. *)
Lemma C6_witness :
  ∃ r,
    PyDict.get (scripsDetails sample_statistics) "AAA" = Some r
    ∧ ScripDetails.pointChange r = 5
    ∧ ScripDetails.percentageChange r = 2
    ∧ ScripDetails.ltp r = 255.
Proof.
  destruct (C6_gainers_then_losers_then_zero 0 Z.add
              (client_of sample_feeds) sample_feeds
              ltac:(repeat split; reflexivity)
              sample_statistics ltac:(vm_compute; reflexivity)
              "AAA" ltac:(apply (bool_decide_unpack _); vm_compute; exact I))
    as (r & Hget & Hgainer & _ & _).
  exists r. split; [exact Hget|].
  apply (Hgainer (Mover.mk "AAA" 5 2 255)). vm_compute. reflexivity.
Defined.

(** C10 at the sample feeds: three scrips, two sectors. *)
Lemma C10_witness :
  (∀ symbol,
     symbol ∈ PyDict.keys (scripsDetails sample_statistics)
     ↔ symbol ∈ map Company.symbol (companyList sample_feeds))
  ∧ (∀ sector,
       sector ∈ PyDict.keys (sectorsDetails sample_statistics)
       ↔ sector ∈ map Company.sectorName (companyList sample_feeds)).
Proof.
  destruct (C10_keys_of_scrips_and_sectors 0 Z.add
              (client_of sample_feeds) sample_feeds
              ltac:(repeat split; reflexivity)
              sample_statistics ltac:(vm_compute; reflexivity))
    as (_ & Hscrips & _ & _ & _ & Hsectors).
  split; [exact Hscrips|]. apply Hsectors.
  apply (bool_decide_unpack _). vm_compute. exact I.
Defined.

(** C7 at the failing input.  A fifth request reaches the middleware of
    [main.py] in the instant in which four were admitted.  [dispatch] asks
    the bucket once and does not call the application, as the claim says;
    but the rejection is the exception [HTTPException(429, "Rate limit
    exceeded")] raised out of [dispatch], not a response of status 429
    returned by it. *)
Theorem C7_rejection_is_raised_out_of_the_middleware :
  (dispatch (TokenBucket.take_token 0) sample_call_next "/summary"
     sample_middleware_exhausted).1
  = Raise (HTTPException 429 "Rate limit exceeded")
  ∧ app (dispatch (TokenBucket.take_token 0) sample_call_next "/summary"
           sample_middleware_exhausted).2 = 4%nat
  ∧ trace (dispatch (TokenBucket.take_token 0) sample_call_next "/summary"
             sample_middleware_exhausted).2 = [EvTakeToken false].
Proof. by vm_compute. Qed.

(** * Further properties of the routes *)

Lemma string_app_assoc (a b c : string) : (a +:+ b) +:+ c = a +:+ b +:+ c.
Proof.
  induction a as [|x a IH]; [done|].
  change (String x ((a +:+ b) +:+ c) = String x (a +:+ b +:+ c)). by f_equal.
Qed.

Lemma string_app_nil_r (a : string) : a +:+ "" = a.
Proof.
  induction a as [|x a IH]; [done|].
  change (String x (a +:+ "") = String x a). by f_equal.
Qed.

Section SymbolRouteOutcomes.
Context {num Json : Type}.
Variable str : exn → string.
Variable nepse : Nepse num Json.

(** X1. The daily-price-graph route hands the data of the client on
    unchanged, and whatever the client raises leaves the route as an
    [HTTPException] of status 404 whose detail names the symbol: the route
    raises nothing else, and never a 500. *)
Theorem X1_daily_route_returns_the_data_or_a_404 (symbol : string) :
  match getDailyScripPriceGraph nepse symbol with
  | Ok data => get_daily_scrip_price_graph str nepse symbol = Ok data
  | Raise e =>
      ∃ detail,
        get_daily_scrip_price_graph str nepse symbol
        = Raise (HTTPException 404 detail)
        ∧ names detail symbol
        ∧ ∃ before, detail = before +:+ str e
  end.
Proof.
  destruct (getDailyScripPriceGraph nepse symbol) as [data|e] eqn:E.
  - by apply get_daily_scrip_price_graph_Ok.
  - rewrite (get_daily_scrip_price_graph_Raise str nepse symbol e E).
    eexists. split; [done|]. split; [apply names_middle|].
    exists ("Data for symbol " +:+ symbol +:+ " not found: ")%string.
    by rewrite !string_app_assoc.
Qed.

(** X2. The market-depth route returns exactly when the client returns
    data, and then that data; every exception that leaves it is an
    [HTTPException] of status 404 or 500, and the status is 404 exactly
    when the client raised a [JSONDecodeError]. *)
Theorem X2_market_depth_returns_the_data_or_a_404_or_a_500 (symbol : string) :
  (∀ data, get_market_depth str nepse symbol = Ok data
           ↔ getSymbolMarketDepth nepse symbol = Ok (Some data))
  ∧ (∀ e, get_market_depth str nepse symbol = Raise e →
          ∃ status detail,
            e = HTTPException status detail
            ∧ (status = 404 ∨ status = 500)
            ∧ (status = 404
               ↔ ∃ msg, getSymbolMarketDepth nepse symbol
                        = Raise (JSONDecodeError msg))).
Proof.
  unfold get_market_depth.
  destruct (getSymbolMarketDepth nepse symbol) as [[data|]|e0]; simpl.
  - split; [naive_solver | done].
  - split; [naive_solver|]. intros e [= <-]. do 2 eexists.
    split; [done|]. split; [by right|]. split; [done | by intros [? ?]].
  - split; [destruct e0; naive_solver|].
    intros e He. destruct e0; injection He as <-; do 2 eexists;
      (split; [done|]);
      first [ split; [by left|]; split; [by eexists | done]
            | split; [by right|]; split; [done | by intros [? ?]] ].
Qed.

End SymbolRouteOutcomes.

(** * The routes that index a list *)

Section IndexRouteFacts.
Import PyDict PyDictFacts.
Context {num : Type}.

Lemma for_in_set_comprehension {A V} (key : A → string) (val : A → V) (xs : list A) :
  for_in xs (fun response obj => Ok (set response (key obj) (val obj))) empty
  = Ok (comprehension key val xs).
Proof. by rewrite for_in_Ok. Qed.

(** X3. When the client returns the sub-indices, [_get_nepse_sub_indices]
    returns a dictionary whose keys are exactly the index names of the
    list, each once; a lookup finds the last object of the list with that
    index name, and every object is filed under its own index name. *)
Theorem X3_sub_indices_are_filed_by_index {Json : Type} (nepse : Nepse num Json)
    (objs : list (SubIndex.t num)) :
  getNepseSubIndices nepse = Ok objs →
  ∃ response,
    _get_nepse_sub_indices nepse = Ok response
    ∧ NoDup (keys response)
    ∧ (∀ k, k ∈ keys response ↔ k ∈ map SubIndex.index objs)
    ∧ (∀ k, get response k = last (filter (fun o => SubIndex.index o = k) objs))
    ∧ (∀ k o, get response k = Some o → SubIndex.index o = k ∧ o ∈ objs).
Proof.
  intros H. exists (index_by SubIndex.index objs).
  split; [|split; [|split; [|split]]].
  - unfold _get_nepse_sub_indices. rewrite H. simpl.
    apply for_in_set_comprehension.
  - apply NoDup_keys_index_by.
  - intros k. apply elem_of_keys_index_by.
  - intros k. apply get_index_by.
  - intros k o. apply get_index_by_key.
Qed.

Variable nepse : NepseRest num.

(** X4. The same for [_get_nepse_index] and the indices of the client. *)
Theorem X4_indices_are_filed_by_index (objs : list (SubIndex.t num)) :
  getNepseIndex nepse = Ok objs →
  ∃ response,
    _get_nepse_index nepse = Ok response
    ∧ NoDup (keys response)
    ∧ (∀ k, k ∈ keys response ↔ k ∈ map SubIndex.index objs)
    ∧ (∀ k, get response k = last (filter (fun o => SubIndex.index o = k) objs))
    ∧ (∀ k o, get response k = Some o → SubIndex.index o = k ∧ o ∈ objs).
Proof.
  intros H. exists (index_by SubIndex.index objs).
  split; [|split; [|split; [|split]]].
  - unfold _get_nepse_index. rewrite H. simpl.
    apply for_in_set_comprehension.
  - apply NoDup_keys_index_by.
  - intros k. apply elem_of_keys_index_by.
  - intros k. apply get_index_by.
  - intros k o. apply get_index_by_key.
Qed.

(** X5. When the client returns the summary, [_getSummary] returns a
    dictionary whose keys are exactly the details of the list, each once,
    and the value under a detail is the value of the last entry of the list
    with that detail. *)
Theorem X5_summary_maps_details_to_values (objs : list (SummaryItem.t num)) :
  getSummary nepse = Ok objs →
  ∃ response,
    _getSummary nepse = Ok response
    ∧ NoDup (keys response)
    ∧ (∀ k, k ∈ keys response ↔ k ∈ map SummaryItem.detail objs)
    ∧ (∀ k, get response k
            = SummaryItem.value
                <$> last (filter (fun o => SummaryItem.detail o = k) objs)).
Proof.
  intros H. exists (comprehension SummaryItem.detail SummaryItem.value objs).
  split; [|split; [|split]].
  - unfold _getSummary. rewrite H. simpl. apply for_in_set_comprehension.
  - apply NoDup_keys_comprehension.
  - intros k. apply elem_of_keys_comprehension.
  - intros k. apply get_comprehension.
Qed.

End IndexRouteFacts.

(** * The pages that list the symbols *)

Section ListPageFacts.
Context {num : Type}.
Variable nepse : NepseRest num.

Lemma for_in_append {A B} (g : A → B) (xs : list A) (acc : list B) :
  for_in xs (fun links x => Ok (links ++ [g x])) acc = Ok (acc ++ map g xs).
Proof.
  revert acc. induction xs as [|x xs IH]; intros acc; simpl.
  - by rewrite app_nil_r.
  - rewrite IH. by rewrite <- app_assoc.
Qed.

Lemma names_refl (x : string) : names x x.
Proof. exists ""%string, ""%string. by rewrite string_app_nil_r. Qed.

Lemma names_prefix (h s x : string) : names s x → names (h +:+ s) x.
Proof.
  intros (before & after & ->). exists (h +:+ before), after.
  by rewrite string_app_assoc.
Qed.

Lemma join_cons (sep x y : string) (ys : list string) :
  join sep (x :: y :: ys) = x +:+ sep +:+ join sep (y :: ys).
Proof. done. Qed.

(** Every string that is joined is part of the result. *)
Lemma names_join (sep : string) (xs : list string) (x : string) :
  x ∈ xs → names (join sep xs) x.
Proof.
  induction xs as [|x0 xs IH]; [by intros ?%elem_of_nil|].
  destruct xs as [|y ys].
  - intros ->%list_elem_of_singleton. apply names_refl.
  - rewrite join_cons. intros [->|Hin]%elem_of_cons.
    + by exists ""%string, (sep +:+ join sep (y :: ys)).
    + by apply names_prefix, names_prefix, IH.
Qed.

(** X6. When the client returns the security list, the page of
    [list_daily_scrip_price_graph] is its heading followed by one anchor per
    security, in the order of the list and separated by "<BR>"; the anchor
    of a symbol points at "/daily-scrip-price-graph/" followed by the
    symbol, the path of the route of that symbol.  The page of an empty
    list is the heading alone, and the anchor of every security of the
    list is on the page. *)
Theorem X6_daily_list_page_links_every_security (symbols : list Security.t) :
  getSecurityList nepse = Ok symbols →
  ∃ page,
    list_daily_scrip_price_graph nepse = Ok {| content := page |}
    ∧ page = "<h1>Available Scrips</h1>"
             +:+ join "<BR>"
                   (map (fun s => anchor "/daily-scrip-price-graph" (Security.symbol s))
                      symbols)
    ∧ (symbols = [] → page = "<h1>Available Scrips</h1>"%string)
    ∧ (∀ s, s ∈ symbols →
            names page (anchor "/daily-scrip-price-graph" (Security.symbol s))).
Proof.
  intros H. eexists. split; [|split; [reflexivity|split]].
  - unfold list_daily_scrip_price_graph. rewrite H. simpl.
    rewrite (for_in_ext _ _
               (fun links s =>
                  Ok (links ++ [anchor "/daily-scrip-price-graph" (Security.symbol s)])))
      by done.
    by rewrite for_in_append.
  - by intros ->.
  - intros s Hs. apply names_prefix, names_join.
    apply list_elem_of_fmap. by exists s.
Qed.

(** X7. The same for [list_market_depth], whose anchors point at
    "/market-depth/" followed by the symbol. *)
Theorem X7_market_depth_list_page_links_every_security (symbols : list Security.t) :
  getSecurityList nepse = Ok symbols →
  ∃ page,
    list_market_depth nepse = Ok {| content := page |}
    ∧ page = "<h1>Market Depth - Available Symbols</h1>"
             +:+ join "<BR>"
                   (map (fun s => anchor "/market-depth" (Security.symbol s)) symbols)
    ∧ (symbols = [] → page = "<h1>Market Depth - Available Symbols</h1>"%string)
    ∧ (∀ s, s ∈ symbols →
            names page (anchor "/market-depth" (Security.symbol s))).
Proof.
  intros H. eexists. split; [|split; [reflexivity|split]].
  - unfold list_market_depth. rewrite H. simpl.
    rewrite (for_in_ext _ _
               (fun links s =>
                  Ok (links ++ [anchor "/market-depth" (Security.symbol s)])))
      by done.
    by rewrite for_in_append.
  - by intros ->.
  - intros s Hs. apply names_prefix, names_join.
    apply list_elem_of_fmap. by exists s.
Qed.

End ListPageFacts.

(** * Further properties of the statistics aggregator *)

Section StatisticsOutcomes.
Import PyDict PyDictFacts.
Context {num Json : Type}.
Variable zero : num.
Variable add : num → num → num.
Variable nepse : Nepse num Json.

(** X8. When a fetch raises, the route raises the exception of the first
    fetch that does, in the order company list, turnover, transaction and
    trade leaders, gainers, losers, price volume, sub-indices; this holds
    for the price-volume fetch too, whose data the route does not use. *)
Theorem X8_first_failing_fetch_fails_the_route (e : exn) :
  first_fetch_exception nepse = Some e →
  get_trade_turnover_transaction_subindices zero add nepse = Raise e.
Proof.
  unfold first_fetch_exception, get_trade_turnover_transaction_subindices,
    _get_nepse_sub_indices.
  destruct (getCompanyList nepse); simpl; [|by intros [= ->]].
  destruct (getTopTenTurnoverScrips nepse); simpl; [|by intros [= ->]].
  destruct (getTopTenTransactionScrips nepse); simpl; [|by intros [= ->]].
  destruct (getTopTenTradeScrips nepse); simpl; [|by intros [= ->]].
  destruct (getTopGainers nepse); simpl; [|by intros [= ->]].
  destruct (getTopLosers nepse); simpl; [|by intros [= ->]].
  destruct (getPriceVolume nepse); simpl; [|by intros [= ->]].
  destruct (getNepseSubIndices nepse); simpl; [done | by intros [= ->]].
Qed.

Section Fetched.
Variable feeds : Feeds num.
Hypothesis Hfetched : fetched nepse feeds.

Abbreviation companies := (index_by Company.symbol (companyList feeds)).
Abbreviation turnover := (index_by TurnoverScrip.symbol (turnoverScrips feeds)).
Abbreviation transaction :=
  (index_by TransactionScrip.symbol (transactionScrips feeds)).
Abbreviation trade := (index_by TradeScrip.symbol (tradeScrips feeds)).
Abbreviation gainers := (index_by Mover.symbol (topGainers feeds)).
Abbreviation losers := (index_by Mover.symbol (topLosers feeds)).
Abbreviation sector_sub_indices := (index_by SubIndex.index (subIndices feeds)).

(** X11. The price-volume feed does not reach the result: two clients
    whose fetches return the same lists, the price-volume lists apart, get
    the same answer from the route. *)
Theorem X11_the_price_volume_feed_is_not_used
    (nepse' : Nepse num Json) (feeds' : Feeds num) :
  fetched nepse' feeds' →
  companyList feeds' = companyList feeds →
  turnoverScrips feeds' = turnoverScrips feeds →
  transactionScrips feeds' = transactionScrips feeds →
  tradeScrips feeds' = tradeScrips feeds →
  topGainers feeds' = topGainers feeds →
  topLosers feeds' = topLosers feeds →
  subIndices feeds' = subIndices feeds →
  get_trade_turnover_transaction_subindices zero add nepse'
  = get_trade_turnover_transaction_subindices zero add nepse.
Proof.
  intros Hf' H1 H2 H3 H4 H5 H6 H7.
  rewrite (statistics_fetched zero add nepse feeds Hfetched).
  rewrite (statistics_fetched zero add nepse' feeds' Hf').
  by rewrite H1, H2, H3, H4, H5, H6, H7.
Qed.

Variable out : Statistics num.
Hypothesis HOk : get_trade_turnover_transaction_subindices zero add nepse = Ok out.

(** X12. When the route returns, every record is filed under its own
    name: the record under a symbol carries that symbol, the record under
    a sector name carries that sector name, and its index is a sub-index of
    the feed whose index name is the label of the sector in
    [sector_mapper]. *)
Theorem X12_records_are_filed_under_their_own_names :
  (∀ symbol r,
     get (scripsDetails out) symbol = Some r → ScripDetails.symbol r = symbol)
  ∧ (∀ sector r,
       get (sectorsDetails out) sector = Some r →
       SectorDetails.sectorName r = sector
       ∧ get sector_mapper sector = Some (SubIndex.index (SectorDetails.index r))
       ∧ SectorDetails.index r ∈ subIndices feeds).
Proof.
  split.
  - intros symbol r Hget.
    destruct (statistics_scrip zero add nepse feeds out symbol r Hfetched HOk Hget)
      as (company & _ & _ & Hd).
    by apply company_details_Ok in Hd as (? & _).
  - intros sector r Hget.
    assert (Hin : sector ∈ keys (sectorsDetails out))
      by (apply get_is_Some; by exists r).
    rewrite (statistics_sectors_keys zero add nepse feeds out Hfetched HOk) in Hin.
    destruct (statistics_Ok zero add nepse feeds out Hfetched HOk) as [_ Hsec].
    destruct (build_sector_details_get zero add _ _ _ _ sector
                (NoDup_elements _) Hsec Hin) as (r' & Hget' & Hrec).
    assert (r' = r) as -> by congruence.
    rewrite sector_record_eq in Hrec.
    destruct (get sector_mapper sector) as [label|]; [|done].
    destruct (get sector_sub_indices label) as [o|] eqn:Hs; [|done].
    injection Hrec as <-. simpl.
    apply get_index_by_key in Hs as [-> Ho]. done.
Qed.

(** X13. When the route returns, the turnover of a record is the turnover
    of its symbol among the turnover leaders, and 0 for any other symbol;
    its number of trades is that of its symbol among the transaction
    leaders, and 0 for any other symbol; its traded quantity is the shares
    traded of its symbol among the trade-volume leaders when the symbol is
    among the transaction leaders, and 0 when it is not. *)
Theorem X13_leader_values_of_a_record symbol r :
  get (scripsDetails out) symbol = Some r →
  ScripDetails.totalTurnover r
  = value_or_zero zero turnover TurnoverScrip.turnover symbol
  ∧ ScripDetails.totalTrades r
    = value_or_zero zero transaction TransactionScrip.totalTrades symbol
  ∧ ScripDetails.totalTradeQuantity r
    = (if contains transaction symbol
       then value_or_zero zero trade TradeScrip.shareTraded symbol
       else zero).
Proof. by apply (statistics_leader_values zero add nepse feeds Hfetched out HOk). Qed.

(** X14. When the route returns, a symbol that none of the five
    collections of leaders, gainers and losers mentions has a record of
    zeros. *)
Theorem X14_unmentioned_symbol_gets_zeros symbol r :
  get (scripsDetails out) symbol = Some r →
  symbol ∉ map TurnoverScrip.symbol (turnoverScrips feeds) →
  symbol ∉ map TransactionScrip.symbol (transactionScrips feeds) →
  symbol ∉ map TradeScrip.symbol (tradeScrips feeds) →
  symbol ∉ map Mover.symbol (topGainers feeds) →
  symbol ∉ map Mover.symbol (topLosers feeds) →
  ScripDetails.totalTurnover r = zero
  ∧ ScripDetails.totalTrades r = zero
  ∧ ScripDetails.totalTradeQuantity r = zero
  ∧ ScripDetails.pointChange r = zero
  ∧ ScripDetails.percentageChange r = zero
  ∧ ScripDetails.ltp r = zero.
Proof.
  by apply (statistics_absent_symbol_zero zero add nepse feeds Hfetched out HOk).
Qed.

End Fetched.

(** X15. When all fetches have returned, a symbol of the company list that
    is among the transaction leaders but not among the trade-volume
    leaders makes the route raise the [KeyError] of such a symbol, before
    any sector is looked at. *)
Theorem X15_transaction_leader_without_trade_fails_the_route
    (feeds : Feeds num) (symbol : string) :
  fetched nepse feeds →
  symbol ∈ map Company.symbol (companyList feeds) →
  symbol ∈ map TransactionScrip.symbol (transactionScrips feeds) →
  symbol ∉ map TradeScrip.symbol (tradeScrips feeds) →
  ∃ key,
    get_trade_turnover_transaction_subindices zero add nepse = Raise (KeyError key)
    ∧ key ∈ map Company.symbol (companyList feeds)
    ∧ key ∈ map TransactionScrip.symbol (transactionScrips feeds)
    ∧ key ∉ map TradeScrip.symbol (tradeScrips feeds).
Proof. apply transaction_without_trade_KeyError. Qed.

(** X16. The loop over the sectors does not depend on the order in which
    the set of the sectors is traversed: if it ends normally in one order,
    it ends normally in every other, and a lookup in the result finds the
    same record. *)
Theorem X16_sector_loop_does_not_depend_on_the_order
    (sector_sub_indices : dict (SubIndex.t num))
    (scrips_details : dict (ScripDetails.t num))
    (sectors1 sectors2 : list string) (sector_details1 : dict (SectorDetails.t num)) :
  NoDup sectors1 → sectors1 ≡ₚ sectors2 →
  build_sector_details zero add sector_sub_indices scrips_details sectors1
  = Ok sector_details1 →
  ∃ sector_details2,
    build_sector_details zero add sector_sub_indices scrips_details sectors2
    = Ok sector_details2
    ∧ ∀ sector, get sector_details2 sector = get sector_details1 sector.
Proof. apply build_sector_details_order. Qed.

End StatisticsOutcomes.

(** * The further properties at the samples *)

(** X3 at the sub-indices of the sample feeds. *)
Lemma X3_witness :
  ∃ response,
    _get_nepse_sub_indices (client_of sample_feeds) = Ok response
    ∧ PyDict.keys response = ["Finance Index"; "Others Index"]%string.
Proof.
  destruct (X3_sub_indices_are_filed_by_index (client_of sample_feeds)
              (subIndices sample_feeds) ltac:(reflexivity))
    as (response & Hok & _).
  exists response. split; [exact Hok|].
  injection Hok as <-. vm_compute. reflexivity.
Defined.

(** X4 at the sample indices. *)
Lemma X4_witness :
  ∃ response,
    _get_nepse_index sample_rest = Ok response
    ∧ ∀ k o, PyDict.get response k = Some o →
             SubIndex.index o = k
             ∧ o ∈ [ sample_sub_index "NEPSE Index"; sample_sub_index "Float Index" ].
Proof.
  destruct (X4_indices_are_filed_by_index sample_rest
              [ sample_sub_index "NEPSE Index"; sample_sub_index "Float Index" ]
              ltac:(reflexivity))
    as (response & Hok & _ & _ & _ & Hfiled).
  exists response. split; [exact Hok | exact Hfiled].
Defined.

(** X5 at the sample summary, which has two entries for the turnover: the
    later one is kept. *)
Lemma X5_witness :
  ∃ response,
    _getSummary sample_rest = Ok response
    ∧ PyDict.get response "Total Turnover Rs:" = Some 300.
Proof.
  destruct (X5_summary_maps_details_to_values sample_rest
              [ SummaryItem.mk "Total Turnover Rs:" 100;
                SummaryItem.mk "Total Traded Shares" 20;
                SummaryItem.mk "Total Turnover Rs:" 300 ]
              ltac:(reflexivity))
    as (response & Hok & _ & _ & Hget).
  exists response. split; [exact Hok|].
  rewrite Hget. vm_compute. reflexivity.
Defined.

(** X6 at the sample security list. *)
Lemma X6_witness :
  ∃ page,
    list_daily_scrip_price_graph sample_rest = Ok {| content := page |}
    ∧ page = "<h1>Available Scrips</h1><a href=/daily-scrip-price-graph/NABIL> NABIL </a><BR><a href=/daily-scrip-price-graph/NICA> NICA </a>"%string.
Proof.
  destruct (X6_daily_list_page_links_every_security sample_rest
              [ Security.mk "NABIL"; Security.mk "NICA" ] ltac:(reflexivity))
    as (page & Hok & Hpage & _).
  exists page. split; [exact Hok|]. rewrite Hpage. vm_compute. reflexivity.
Defined.

(** X7 at the sample security list. *)
Lemma X7_witness :
  ∃ page,
    list_market_depth sample_rest = Ok {| content := page |}
    ∧ page = "<h1>Market Depth - Available Symbols</h1><a href=/market-depth/NABIL> NABIL </a><BR><a href=/market-depth/NICA> NICA </a>"%string.
Proof.
  destruct (X7_market_depth_list_page_links_every_security sample_rest
              [ Security.mk "NABIL"; Security.mk "NICA" ] ltac:(reflexivity))
    as (page & Hok & Hpage & _).
  exists page. split; [exact Hok|]. rewrite Hpage. vm_compute. reflexivity.
Defined.

(** X8 at a client whose price-volume fetch times out. *)
Lemma X8_witness :
  get_trade_turnover_transaction_subindices 0 Z.add sample_client_price_volume_down
  = Raise (Exception "timed out").
Proof.
  apply (X8_first_failing_fetch_fails_the_route 0 Z.add
           sample_client_price_volume_down (Exception "timed out")).
  vm_compute. reflexivity.
Defined.

(** X11 at the sample feeds and the same feeds with another price-volume
    list. *)
Lemma X11_witness :
  get_trade_turnover_transaction_subindices 0 Z.add
    (client_of sample_feeds_price_volume)
  = get_trade_turnover_transaction_subindices 0 Z.add (client_of sample_feeds).
Proof.
  apply (X11_the_price_volume_feed_is_not_used 0 Z.add
           (client_of sample_feeds) sample_feeds
           ltac:(repeat split; reflexivity)
           (client_of sample_feeds_price_volume) sample_feeds_price_volume
           ltac:(repeat split; reflexivity));
    reflexivity.
Defined.

(** X12 at the sample feeds. *)
Lemma X12_witness :
  (∀ symbol r,
     PyDict.get (scripsDetails sample_statistics) symbol = Some r →
     ScripDetails.symbol r = symbol)
  ∧ (∀ sector r,
       PyDict.get (sectorsDetails sample_statistics) sector = Some r →
       SectorDetails.sectorName r = sector
       ∧ PyDict.get sector_mapper sector
         = Some (SubIndex.index (SectorDetails.index r))
       ∧ SectorDetails.index r ∈ subIndices sample_feeds).
Proof.
  apply (X12_records_are_filed_under_their_own_names 0 Z.add
           (client_of sample_feeds) sample_feeds
           ltac:(repeat split; reflexivity)
           sample_statistics).
  vm_compute. reflexivity.
Defined.

(** X13 at the sample feeds: "AAA" leads in turnover, in transactions and
    in trade volume. *)
Lemma X13_witness :
  ∃ r,
    PyDict.get (scripsDetails sample_statistics) "AAA" = Some r
    ∧ ScripDetails.totalTurnover r = 100
    ∧ ScripDetails.totalTrades r = 7
    ∧ ScripDetails.totalTradeQuantity r = 9.
Proof.
  eexists. split; [vm_compute; reflexivity|].
  apply (X13_leader_values_of_a_record 0 Z.add
           (client_of sample_feeds) sample_feeds
           ltac:(repeat split; reflexivity)
           sample_statistics ltac:(vm_compute; reflexivity) "AAA").
  vm_compute. reflexivity.
Defined.

(** X14 at the sample feeds: no collection mentions "CCC". *)
Lemma X14_witness :
  ∃ r,
    PyDict.get (scripsDetails sample_statistics) "CCC" = Some r
    ∧ ScripDetails.totalTurnover r = 0
    ∧ ScripDetails.totalTrades r = 0
    ∧ ScripDetails.totalTradeQuantity r = 0
    ∧ ScripDetails.pointChange r = 0
    ∧ ScripDetails.percentageChange r = 0
    ∧ ScripDetails.ltp r = 0.
Proof.
  eexists. split; [vm_compute; reflexivity|].
  apply (X14_unmentioned_symbol_gets_zeros 0 Z.add
           (client_of sample_feeds) sample_feeds
           ltac:(repeat split; reflexivity)
           sample_statistics ltac:(vm_compute; reflexivity) "CCC");
    first [ vm_compute; reflexivity
          | apply (bool_decide_unpack _); vm_compute; exact I ].
Defined.

(** X15 at feeds in which "BBB" is a transaction leader only. *)
Lemma X15_witness :
  ∃ key,
    get_trade_turnover_transaction_subindices 0 Z.add
      (client_of sample_feeds_transaction_only) = Raise (KeyError key)
    ∧ key ∈ map Company.symbol (companyList sample_feeds_transaction_only)
    ∧ key ∈ map TransactionScrip.symbol
              (transactionScrips sample_feeds_transaction_only)
    ∧ key ∉ map TradeScrip.symbol (tradeScrips sample_feeds_transaction_only).
Proof.
  apply (X15_transaction_leader_without_trade_fails_the_route 0 Z.add
           (client_of sample_feeds_transaction_only)
           sample_feeds_transaction_only "BBB").
  - repeat split; reflexivity.
  - apply (bool_decide_unpack _). vm_compute. exact I.
  - apply (bool_decide_unpack _). vm_compute. exact I.
  - apply (bool_decide_unpack _). vm_compute. exact I.
Defined.

(** X16 at the two sectors of the sample feeds, traversed both ways. *)
Lemma X16_witness :
  ∃ sector_details2,
    build_sector_details 0 Z.add
      (index_by SubIndex.index (subIndices sample_feeds))
      (scripsDetails sample_statistics) ["Finance"; "Others"]%string
    = Ok sector_details2
    ∧ ∀ sector,
        PyDict.get sector_details2 sector
        = PyDict.get (sectorsDetails sample_statistics) sector.
Proof.
  apply (X16_sector_loop_does_not_depend_on_the_order 0 Z.add
           (index_by SubIndex.index (subIndices sample_feeds))
           (scripsDetails sample_statistics)
           ["Others"; "Finance"]%string ["Finance"; "Others"]%string
           (sectorsDetails sample_statistics)).
  - apply (bool_decide_unpack _). vm_compute. exact I.
  - apply perm_swap.
  - vm_compute. reflexivity.
Defined.
